(** * Kids Blockchain: the ledger engine of [kids_blockchain/core.py]

    A shallow embedding of the classes [Transaction], [Block] and
    [Blockchain], with the properties of the ledger proved over it.

    Conventions of the embedding.
    - A Python [str] is a [string]; its characters are read as the code
      points 0..255.
    - A Python [float] is a primitive binary64 [float]; comparisons and
      arithmetic are the IEEE ones ([PrimFloat.leb], [PrimFloat.ltb],
      [PrimFloat.add], [PrimFloat.sub]).
    - A Python [int] is a [Z]; [difficulty], which the constructor clamps
      with [max(0, int(difficulty))], is a [nat].
    - A method that mutates [self] returns the new ledger next to its
      result; a method that may raise returns an [outcome].
    - [_now()] reads the wall clock: each reading is an argument of the
      method that makes it.
    - [float(str)], [repr(float)], [json.dumps] and [hashlib.sha256] are
      the fields of a [Runtime]; the theorems are stated for every
      runtime, and the examples run on a sample one. *)

From Stdlib Require Import ZArith String Ascii Floats Lia.
From stdpp Require Import base strings gmap sorting pretty list.

Open Scope string_scope.
Open Scope Z_scope.

(** ** Python strings *)

Module Str.

(** [c.isspace()] on the code points 0..255: tab to carriage return, the
    separators 0x1c..0x1f, the space, NEL (0x85) and the no-break space. *)
Definition isspace (c : ascii) : bool :=
  let n := N_of_ascii c in
  ((9 <=? n) && (n <=? 13) || (28 <=? n) && (n <=? 32) || (n =? 133) || (n =? 160))%N.

Fixpoint lstrip (s : string) : string :=
  match s with
  | EmptyString => EmptyString
  | String c s' => if isspace c then lstrip s' else s
  end.

Fixpoint rstrip (s : string) : string :=
  match s with
  | EmptyString => EmptyString
  | String c s' =>
      match rstrip s' with
      | EmptyString => if isspace c then EmptyString else String c EmptyString
      | r => String c r
      end
  end.

(** [s.strip()] *)
Definition strip (s : string) : string := rstrip (lstrip s).

(** [c.upper()] on ASCII letters. A code point above 127 is left as it
    is: Python maps it to a code point above 127 again (or to "SS" for
    0xdf), so a comparison of the result with an ASCII word without "SS"
    agrees with Python's. *)
Definition upper_char (c : ascii) : ascii :=
  let n := N_of_ascii c in
  if ((97 <=? n) && (n <=? 122))%N then ascii_of_N (n - 32) else c.

Fixpoint upper (s : string) : string :=
  match s with
  | EmptyString => EmptyString
  | String c s' => String (upper_char c) (upper s')
  end.

(** [s.startswith(p)] *)
Definition startswith (s p : string) : bool := String.prefix p s.

(** [c * n] for a one-character string [c] *)
Fixpoint repeat (c : ascii) (n : nat) : string :=
  match n with
  | O => EmptyString
  | S n' => String c (repeat c n')
  end.

End Str.

(** ** Python floats *)

Module Float.

(** Quotient of [num / den] rounded to the nearest integer, ties to even. *)
Definition round_half_even (num den : Z) : Z :=
  let q := num / den in
  let r := num mod den in
  match (2 * r ?= den) with
  | Lt => q
  | Gt => q + 1
  | Eq => if Z.even q then q else q + 1
  end.

(** [round(x, 8)]: CPython converts [x] to the decimal with 8 digits
    after the point that is nearest to the exact value of [x] (ties to
    even), and that decimal back to the nearest float; infinities, NaN
    and zeros round to themselves, and the sign is kept. A float
    [m * 2^e] with [0 <= e] is an integer and is its own rounding. *)
Definition round8 (x : float) : float :=
  match Prim2SF x with
  | S754_finite s m e =>
      if 0 <=? e then x
      else
        match round_half_even (Z.pos m * 10 ^ 8) (2 ^ (- e)) with
        | Z.pos p =>
            SF2Prim (SFdiv prec emax (S754_finite s p 0)
                                     (S754_finite false 100000000 0))
        | _ => SF2Prim (S754_zero s)
        end
  | _ => x
  end.

End Float.

(** ** Exceptions *)

Inductive exn : Type :=
  | ValueError
  | KeyError (key : string)
  | TypeError
  | IndexError.

(** What a call does: it returns, it raises, or it is still running when
    the fuel of its only loop (the nonce search) is spent. *)
Inductive outcome (A : Type) : Type :=
  | Returned (a : A)
  | Raised (e : exn)
  | Running.

Arguments Returned {A} a.
Arguments Raised {A} e.
Arguments Running {A}.

(** [d[key]] on a dict read as a typed view: a key is absent ([None]) or
    holds a value of its declared type. *)
Definition getitem {A : Type} (key : string) (v : option A) : exn + A :=
  match v with
  | Some a => inr a
  | None => inl (KeyError key)
  end.

(** [d.get(key, default)] *)
Definition get {A : Type} (v : option A) (default : A) : A :=
  match v with
  | Some a => a
  | None => default
  end.

(** A list comprehension whose body may raise: the first exception
    leaves the comprehension. *)
Fixpoint comprehension {A B : Type} (f : A -> exn + B) (l : list A) : exn + list B :=
  match l with
  | [] => inr []
  | a :: l' =>
      match f a with
      | inl e => inl e
      | inr b =>
          match comprehension f l' with
          | inl e => inl e
          | inr bs => inr (b :: bs)
          end
      end
  end.

(** ** Transaction *)

Module Transaction.

Record t : Type := mk {
  sender : string;
  recipient : string;
  amount : float;
  note : string;
  timestamp : string
}.

(** The dict form of a transaction, as [asdict] writes it and as the
    constructor reads it when the dict is unpacked into its keyword
    arguments; [d_other] lists the keys of the dict that are no field of
    the dataclass. *)
Record dict : Type := mkdict {
  d_sender : option string;
  d_recipient : option string;
  d_amount : option float;
  d_note : option string;
  d_timestamp : option string;
  d_other : list string
}.

Definition to_dict (self : t) : dict :=
  {| d_sender := Some (sender self);
     d_recipient := Some (recipient self);
     d_amount := Some (amount self);
     d_note := Some (note self);
     d_timestamp := Some (timestamp self);
     d_other := [] |}.

(** The constructor applied to the unpacked dict: a key that is no
    field, or a missing [sender], [recipient] or [amount], is a
    [TypeError]; [note] and [timestamp] default to the empty string. *)
Definition from_dict (d : dict) : exn + t :=
  match d_other d, d_sender d, d_recipient d, d_amount d with
  | [], Some s, Some r, Some a =>
      inr {| sender := s; recipient := r; amount := a;
             note := get (d_note d) ""; timestamp := get (d_timestamp d) "" |}
  | _, _, _, _ => inl TypeError
  end.

End Transaction.

(** ** Block *)

Module Block.

Record t : Type := mk {
  index : Z;
  timestamp : string;
  transactions : list Transaction.t;
  previous_hash : string;
  nonce : Z;
  hash : string
}.

Record dict : Type := mkdict {
  d_index : option Z;
  d_timestamp : option string;
  d_transactions : option (list Transaction.dict);
  d_previous_hash : option string;
  d_nonce : option Z;
  d_hash : option string
}.

Definition to_dict (self : t) : dict :=
  {| d_index := Some (index self);
     d_timestamp := Some (timestamp self);
     d_transactions := Some (map Transaction.to_dict (transactions self));
     d_previous_hash := Some (previous_hash self);
     d_nonce := Some (nonce self);
     d_hash := Some (hash self) |}.

(** The keyword arguments are evaluated in the order they are written. *)
Definition from_dict (d : dict) : exn + t :=
  match getitem "index" (d_index d) with
  | inl e => inl e
  | inr i =>
  match getitem "timestamp" (d_timestamp d) with
  | inl e => inl e
  | inr ts =>
  match getitem "transactions" (d_transactions d) with
  | inl e => inl e
  | inr tds =>
  match comprehension Transaction.from_dict tds with
  | inl e => inl e
  | inr txs =>
  match getitem "previous_hash" (d_previous_hash d) with
  | inl e => inl e
  | inr ph =>
  match getitem "nonce" (d_nonce d) with
  | inl e => inl e
  | inr n =>
  match getitem "hash" (d_hash d) with
  | inl e => inl e
  | inr h =>
      inr {| index := i; timestamp := ts; transactions := txs;
             previous_hash := ph; nonce := n; hash := h |}
  end end end end end end end.

(** [block.nonce = n] and [block.hash = h] *)
Definition set_nonce (self : t) (n : Z) : t :=
  {| index := index self; timestamp := timestamp self;
     transactions := transactions self; previous_hash := previous_hash self;
     nonce := n; hash := hash self |}.

Definition set_hash (self : t) (h : string) : t :=
  {| index := index self; timestamp := timestamp self;
     transactions := transactions self; previous_hash := previous_hash self;
     nonce := nonce self; hash := h |}.

End Block.

(** ** The library functions the ledger calls *)

Class Runtime : Type := {
  (** [float(s)] for a [str]; [None] when it raises [ValueError] *)
  float_of_str : string -> option float;
  (** [repr(x)] of a float, as an f-string writes it *)
  float_repr : float -> string;
  (** [json.dumps(dicts, sort_keys=True)] *)
  json_dumps : list Transaction.dict -> string;
  (** [hashlib.sha256(s.encode()).hexdigest()] *)
  sha256_hexdigest : string -> string;
  (** a SHA-256 digest is 64 hexadecimal digits *)
  sha256_hexdigest_length : forall s, String.length (sha256_hexdigest s) = 64%nat
}.

(** An argument that [float(...)] converts: a float already, or a [str]
    (the shell passes the word the user typed). *)
Inductive number_arg : Type :=
  | OfFloat (x : float)
  | OfStr (s : string).

(** ** Blockchain *)

Module Blockchain.

Record t : Type := mk {
  chain : list Block.t;
  pending : list Transaction.t;
  users : gset string;
  difficulty : nat;
  reward : float
}.

(** Assignments to one attribute of [self]. *)
Definition set_chain (self : t) (c : list Block.t) : t :=
  {| chain := c; pending := pending self; users := users self;
     difficulty := difficulty self; reward := reward self |}.

Definition set_pending (self : t) (p : list Transaction.t) : t :=
  {| chain := chain self; pending := p; users := users self;
     difficulty := difficulty self; reward := reward self |}.

Definition set_users (self : t) (u : gset string) : t :=
  {| chain := chain self; pending := pending self; users := u;
     difficulty := difficulty self; reward := reward self |}.

(** The snapshot [to_dict] writes and [from_dict] reads, as a typed
    view: a key is absent ([None]) or holds a value of its declared type.
    A snapshot with a value of another type under a key is not described
    here, and no statement below speaks of it. *)
Record dict : Type := mkdict {
  d_difficulty : option Z;
  d_reward : option float;
  d_users : option (list string);
  d_pending : option (list Transaction.dict);
  d_chain : option (list Block.dict)
}.

(** [sorted(names)]: the code-point order of [str]. *)
Definition sorted (names : list string) : list string :=
  merge_sort (fun a b : string => Is_true (String.leb a b)) names.

Section Methods.

Context {rt : Runtime}.

(** [float(amount)]; [None] stands for [ValueError]. *)
Definition to_float (amount : number_arg) : option float :=
  match amount with
  | OfFloat x => Some x
  | OfStr s => float_of_str s
  end.

Definition _hash_block (index : Z) (timestamp : string)
    (transactions : list Transaction.t) (previous_hash : string) (nonce : Z) : string :=
  let tx_json := json_dumps (map Transaction.to_dict transactions) in
  let block_string :=
    pretty index +:+ "|" +:+ timestamp +:+ "|" +:+ tx_json +:+ "|" +:+
    previous_hash +:+ "|" +:+ pretty nonce in
  sha256_hexdigest block_string.

Definition _new_block (self : t) (previous_hash : string)
    (transactions : list Transaction.t) (now : string) : Block.t :=
  let index := Z.of_nat (length (chain self)) in
  let timestamp := now in
  let nonce := 0 in
  let block_hash := _hash_block index timestamp transactions previous_hash nonce in
  Block.mk index timestamp transactions previous_hash nonce block_hash.

Definition _create_genesis (self : t) (now_tx now_block : string) : t :=
  let genesis_tx := Transaction.mk "SYSTEM" "GENESIS" 0%float "Genesis" now_tx in
  let block := _new_block self (Str.repeat "0" 64) [genesis_tx] now_block in
  set_chain self (chain self ++ [block]).

(** [Blockchain(difficulty, reward)] *)
Definition __init__ (difficulty : Z) (reward : float) (now_tx now_block : string) : t :=
  let self :=
    {| chain := []; pending := []; users := ∅;
       difficulty := Z.to_nat difficulty; reward := reward |} in
  _create_genesis self now_tx now_block.

Definition add_user (self : t) (name : string) : bool * t :=
  let name := Str.strip name in
  if (name =? "")%string || (Str.upper name =? "SYSTEM")%string then (false, self)
  else if bool_decide (name ∈ users self) then (false, self)
  else (true, set_users self ({[ name ]} ∪ users self)).

Definition get_balance (self : t) (name : string) : float :=
  let balance := 0%float in
  let balance :=
    fold_left (fun balance block =>
      fold_left (fun balance tx =>
        let balance :=
          if (Transaction.sender tx =? name)%string
          then (balance - Transaction.amount tx)%float else balance in
        if (Transaction.recipient tx =? name)%string
        then (balance + Transaction.amount tx)%float else balance)
        (Block.transactions block) balance)
      (chain self) balance in
  let balance :=
    fold_left (fun balance tx =>
      if (Transaction.sender tx =? name)%string
      then (balance - Transaction.amount tx)%float else balance)
      (pending self) balance in
  Float.round8 balance.

(** Returns the message of the failure, or [None] on success. *)
Definition add_transaction (self : t) (sender recipient : string)
    (amount : number_arg) (note : string) (now : string) : option string * t :=
  match to_float amount with
  | None => (Some "Amount must be a number.", self)
  | Some amount =>
      if (amount <=? 0)%float then (Some "Amount must be positive.", self)
      else if negb (sender =? "SYSTEM")%string && negb (bool_decide (sender ∈ users self))
      then (Some ("Unknown sender '" +:+ sender +:+ "'."), self)
      else if negb (bool_decide (recipient ∈ users self)) && negb (recipient =? "GENESIS")%string
      then (Some ("Unknown recipient '" +:+ recipient +:+ "'."), self)
      else if negb (sender =? "SYSTEM")%string && (get_balance self sender <? amount)%float
      then (Some ("Insufficient funds: " +:+ sender +:+ " has " +:+
                  float_repr (get_balance self sender) +:+ "."), self)
      else
        let tx := Transaction.mk sender recipient amount note now in
        (None, set_pending self (pending self ++ [tx]))
  end.

(** One turn of the proof-of-work loop's body. *)
Definition next_nonce (block : Block.t) : Block.t :=
  let block := Block.set_nonce block (Block.nonce block + 1) in
  Block.set_hash block
    (_hash_block (Block.index block) (Block.timestamp block)
       (Block.transactions block) (Block.previous_hash block) (Block.nonce block)).

(** The proof-of-work loop, run for at most [fuel] turns of its body;
    [None] when the condition still holds after them. *)
Fixpoint proof_of_work (fuel : nat) (target_prefix : string) (block : Block.t)
    : option Block.t :=
  if negb (Str.startswith (Block.hash block) target_prefix) then
    match fuel with
    | O => None
    | S fuel' => proof_of_work fuel' target_prefix (next_nonce block)
    end
  else Some block.

Definition mine (self : t) (miner : string) (now_tx now_block : string) (fuel : nat)
    : outcome Block.t * t :=
  if negb (bool_decide (miner ∈ users self)) then (Raised ValueError, self)
  else
    let reward_tx :=
      Transaction.mk "SYSTEM" miner (reward self) "Mining reward" now_tx in
    let txs := (pending self ++ [reward_tx])%list in
    match last (chain self) with
    | None => (Raised IndexError, self)
    | Some last_block =>
        let previous_hash := Block.hash last_block in
        let block := _new_block self previous_hash txs now_block in
        let target_prefix := Str.repeat "0" (difficulty self) in
        match proof_of_work fuel target_prefix block with
        | None => (Running, self)
        | Some block =>
            (Returned block, set_pending (set_chain self (chain self ++ [block])) [])
        end
    end.

Definition to_dict (self : t) : dict :=
  {| d_difficulty := Some (Z.of_nat (difficulty self));
     d_reward := Some (reward self);
     d_users := Some (sorted (elements (users self)));
     d_pending := Some (map Transaction.to_dict (pending self));
     d_chain := Some (map Block.to_dict (chain self)) |}.

Definition from_dict (d : dict) (now_tx now_block : string) : exn + t :=
  let bc := __init__ (get (d_difficulty d) 2) (get (d_reward d) 10%float)
              now_tx now_block in
  let bc := set_users bc (list_to_set (get (d_users d) [])) in
  match comprehension Transaction.from_dict (get (d_pending d) []) with
  | inl e => inl e
  | inr p =>
      let bc := set_pending bc p in
      match comprehension Block.from_dict (get (d_chain d) []) with
      | inl e => inl e
      | inr c => inr (set_chain bc c)
      end
  end.

End Methods.

End Blockchain.

(** ** The shell's [load] command *)

Module BlockchainShell.

Record t : Type := mk {
  bc : Blockchain.t;
  current_user : option string
}.

(** [do_load], from the point where the file has been read and parsed
    into [data]: an exception of [from_dict] leaves the method before the
    assignment to [self.bc]. *)
Definition do_load {rt : Runtime} (self : t) (data : Blockchain.dict)
    (now_tx now_block : string) : outcome unit * t :=
  match Blockchain.from_dict data now_tx now_block with
  | inl e => (Raised e, self)
  | inr loaded => (Returned tt, {| bc := loaded; current_user := None |})
  end.

End BlockchainShell.

(** ** A runtime to run the model on examples

    Stand-ins for the library functions, simple enough to evaluate. They
    are not Python's functions: the theorems are stated for every
    [Runtime], and the sample one only turns the examples into closed
    terms that evaluate. *)

Module Sample.

Fixpoint digits (s : string) (acc : Z) : option Z :=
  match s with
  | EmptyString => Some acc
  | String c s' =>
      let n := Z.of_N (N_of_ascii c) in
      if (48 <=? n) && (n <=? 57) then digits s' (10 * acc + (n - 48)) else None
  end.

(** Reads "nan", "inf" and unsigned decimal integers. *)
Definition parse_float (s : string) : option float :=
  if (s =? "nan")%string then Some nan
  else if (s =? "inf")%string then Some infinity
  else if (s =? "")%string then None
  else option_map (fun z => SF2Prim (binary_normalize prec emax z 0 false)) (digits s 0).

(** Writes a float as its sign, mantissa and binary exponent. *)
Definition show_float (x : float) : string :=
  match Prim2SF x with
  | S754_nan => "nan"
  | S754_infinity s => if s then "-inf" else "inf"
  | S754_zero s => if s then "-0.0" else "0.0"
  | S754_finite s m e =>
      (if s then "-" else "") +:+ pretty (Z.pos m) +:+ "p" +:+ pretty e
  end.

Definition quote : string := String (ascii_of_N 34) EmptyString.

Definition json_field (key : string) (v : option string) : string :=
  quote +:+ key +:+ quote +:+ ": " +:+ get v "null".

Definition json_dict (d : Transaction.dict) : string :=
  "{" +:+ json_field "amount" (option_map show_float (Transaction.d_amount d)) +:+ ", "
      +:+ json_field "note" (Transaction.d_note d) +:+ ", "
      +:+ json_field "recipient" (Transaction.d_recipient d) +:+ ", "
      +:+ json_field "sender" (Transaction.d_sender d) +:+ ", "
      +:+ json_field "timestamp" (Transaction.d_timestamp d) +:+ "}".

Definition dumps (ds : list Transaction.dict) : string :=
  "[" +:+ String.concat ", " (map json_dict ds) +:+ "]".

(** A polynomial checksum of the character codes, modulo 2^16. *)
Definition checksum (s : string) : N :=
  fold_left (fun h c => ((31 * h + N_of_ascii c) mod 65536)%N)
    (list_ascii_of_string s) 7%N.

Definition hexdigit (n : N) : ascii :=
  if (n <? 10)%N then ascii_of_N (48 + n) else ascii_of_N (87 + n).

(** 64 hexadecimal digits: the four digits of the checksum, then 60
    times the digit f. *)
Definition hexdigest (s : string) : string :=
  let h := checksum s in
  String (hexdigit (h mod 16))
    (String (hexdigit ((h / 16) mod 16))
       (String (hexdigit ((h / 256) mod 16))
          (String (hexdigit ((h / 4096) mod 16)) (Str.repeat "f" 60)))).

#[export] Instance runtime : Runtime :=
  Build_Runtime parse_float show_float dumps hexdigest (fun _ => eq_refl).

End Sample.

(** ** Example ledgers

    The session of the spec's concrete scenario, run on the sample
    runtime with difficulty 1. *)

Module Scenario.

Import Sample.

Definition fresh : Blockchain.t :=
  Blockchain.__init__ 1 10%float "2025-01-01T09:00:00Z" "2025-01-01T09:00:00Z".

Definition registered : Blockchain.t :=
  snd (Blockchain.add_user (snd (Blockchain.add_user fresh "alice")) " bob ").

Definition funded : Blockchain.t :=
  snd (Blockchain.add_transaction registered "SYSTEM" "alice" (OfStr "50") "Faucet"
         "2025-01-01T09:01:00Z").

Definition mined : Blockchain.t :=
  snd (Blockchain.mine funded "alice" "2025-01-01T09:02:00Z" "2025-01-01T09:02:00Z" 100).

Definition paying : Blockchain.t :=
  snd (Blockchain.add_transaction mined "alice" "bob" (OfFloat 20%float) "lunch"
         "2025-01-01T09:03:00Z").

(** The last block of [funded]'s chain: its genesis block. *)
Definition funded_last : Block.t :=
  List.last (Blockchain.chain funded) (Block.mk 0 "" [] "" 0 "").

(** The empty JSON object. *)
Definition empty_snapshot : Blockchain.dict :=
  {| Blockchain.d_difficulty := None; Blockchain.d_reward := None;
     Blockchain.d_users := None; Blockchain.d_pending := None;
     Blockchain.d_chain := None |}.

End Scenario.

(** ** Vocabulary of the properties *)

Section Vocabulary.

Context {rt : Runtime}.

(** The reward transaction [mine] builds. *)
Definition reward_tx (self : Blockchain.t) (miner now_tx : string) : Transaction.t :=
  Transaction.mk "SYSTEM" miner (Blockchain.reward self) "Mining reward" now_tx.

(** The block after [k] turns of the proof-of-work loop's body. *)
Definition attempt (block : Block.t) (k : nat) : Block.t :=
  Nat.iter k Blockchain.next_nonce block.

(** The digest of the block [mine] is working on, at nonce [k]. *)
Definition candidate_hash (self : Blockchain.t) (miner now_tx now_block : string)
    (last_block : Block.t) (k : nat) : string :=
  Blockchain._hash_block (Z.of_nat (length (Blockchain.chain self))) now_block
    (Blockchain.pending self ++ [reward_tx self miner now_tx])
    (Block.hash last_block) (Z.of_nat k).

(** The stored hash is the Hasher's digest of the stored fields. *)
Definition hash_valid (block : Block.t) : Prop :=
  Block.hash block =
  Blockchain._hash_block (Block.index block) (Block.timestamp block)
    (Block.transactions block) (Block.previous_hash block) (Block.nonce block).

(** The first [n] characters of [s] exist and are all the digit 0. *)
Definition leading_zeros (n : nat) (s : string) : Prop :=
  forall i : nat, (i < n)%nat -> String.get i s = Some "0"%char.

(** A registered miner on a fresh ledger whose difficulty no digest of
    64 characters can meet. *)
Definition too_hard : Blockchain.t :=
  snd (Blockchain.add_user
         (Blockchain.__init__ 65 10%float "2025-01-01T09:00:00Z" "2025-01-01T09:00:00Z")
         "alice").

End Vocabulary.

(** A snapshot with a user and no [chain] key, and the ledger
    [from_dict] makes of it. *)
Definition snapshot_without_chain : Blockchain.dict :=
  {| Blockchain.d_difficulty := Some 0; Blockchain.d_reward := Some 10%float;
     Blockchain.d_users := Some ["alice"]; Blockchain.d_pending := Some [];
     Blockchain.d_chain := None |}.

Definition ledger_without_chain : Blockchain.t :=
  {| Blockchain.chain := []; Blockchain.pending := [];
     Blockchain.users := list_to_set ["alice"];
     Blockchain.difficulty := 0; Blockchain.reward := 10%float |}.

(** ** Ledgers a session can reach *)

Section Reachable.

Context {rt : Runtime}.

(** The ledgers obtained from a freshly constructed [Blockchain] by
    calls of [add_user], [add_transaction] and [mine], whatever each call
    answers. *)
Inductive reachable : Blockchain.t -> Prop :=
  | reach_init (difficulty : Z) (reward : float) (now_tx now_block : string) :
      reachable (Blockchain.__init__ difficulty reward now_tx now_block)
  | reach_add_user (self : Blockchain.t) (name : string) :
      reachable self -> reachable (snd (Blockchain.add_user self name))
  | reach_add_transaction (self : Blockchain.t) (sender recipient : string)
      (amount : number_arg) (note now : string) :
      reachable self ->
      reachable (snd (Blockchain.add_transaction self sender recipient amount note now))
  | reach_mine (self : Blockchain.t) (miner now_tx now_block : string) (fuel : nat) :
      reachable self ->
      reachable (snd (Blockchain.mine self miner now_tx now_block fuel)).

End Reachable.

(** The genesis block: index 0, the sentinel previous hash, and the one
    transaction from SYSTEM to GENESIS of amount 0. *)
Definition is_genesis (block : Block.t) : Prop :=
  Block.index block = 0
  /\ Block.previous_hash block
     = "0000000000000000000000000000000000000000000000000000000000000000"
  /\ exists now : string,
       Block.transactions block
       = [Transaction.mk "SYSTEM" "GENESIS" 0%float "Genesis" now].

(** Every block sits at its index, and every block after the first
    names the hash of the block before it. *)
Definition well_linked (chain : list Block.t) : Prop :=
  (forall (i : nat) (block : Block.t),
     chain !! i = Some block -> Block.index block = Z.of_nat i)
  /\ (forall (i : nat) (before block : Block.t),
        chain !! i = Some before -> chain !! S i = Some block ->
        Block.previous_hash block = Block.hash before).

(** The sender of a transaction is SYSTEM or a user, its recipient
    GENESIS or a user. *)
Definition known_parties (users : gset string) (tx : Transaction.t) : Prop :=
  (Transaction.sender tx = "SYSTEM" \/ Transaction.sender tx ∈ users)
  /\ (Transaction.recipient tx = "GENESIS" \/ Transaction.recipient tx ∈ users).

Definition all_parties_known (self : Blockchain.t) : Prop :=
  Forall (known_parties (Blockchain.users self)) (Blockchain.pending self)
  /\ Forall (fun block =>
               Forall (known_parties (Blockchain.users self)) (Block.transactions block))
       (Blockchain.chain self).

(** ** The balance, in the words of the specification *)

(** What a transaction does to the balance of a name. *)
Inductive effect : Type :=
  | Debit (amount : float)
  | Credit (amount : float).

Definition apply_effect (balance : float) (e : effect) : float :=
  match e with
  | Debit amount => (balance - amount)%float
  | Credit amount => (balance + amount)%float
  end.

(** A committed transaction subtracts its amount when [name] sends it
    and adds it when [name] receives it. *)
Definition committed_effects (name : string) (tx : Transaction.t) : list effect :=
  ((if (Transaction.sender tx =? name)%string then [Debit (Transaction.amount tx)] else [])
   ++ (if (Transaction.recipient tx =? name)%string
       then [Credit (Transaction.amount tx)] else []))%list.

(** A pending transaction only subtracts, when [name] sends it. *)
Definition pending_effects (name : string) (tx : Transaction.t) : list effect :=
  if (Transaction.sender tx =? name)%string then [Debit (Transaction.amount tx)] else [].

(** The transactions of the whole chain, in order. *)
Definition committed (self : Blockchain.t) : list Transaction.t :=
  concat (map Block.transactions (Blockchain.chain self)).

(** The fold of the specification: from zero, over the effects of every
    committed transaction and then of every pending one, rounded to 8
    decimal places. *)
Definition replayed_balance (self : Blockchain.t) (name : string) : float :=
  Float.round8
    (fold_left apply_effect
       (flat_map (committed_effects name) (committed self)
        ++ flat_map (pending_effects name) (Blockchain.pending self))
       0%float).

(** [name] is the sender or the recipient of [tx]. *)
Definition mentions (name : string) (tx : Transaction.t) : Prop :=
  Transaction.sender tx = name \/ Transaction.recipient tx = name.

(** ** Well-formed records of a snapshot *)

(** A transaction record has [sender], [recipient] and [amount] and no
    key that is not a field. *)
Definition transaction_record_ok (d : Transaction.dict) : bool :=
  match Transaction.d_other d with
  | [] =>
      bool_decide (is_Some (Transaction.d_sender d))
      && bool_decide (is_Some (Transaction.d_recipient d))
      && bool_decide (is_Some (Transaction.d_amount d))
  | _ :: _ => false
  end.

(** A block record has its six keys, and its transaction records are
    well formed. *)
Definition block_record_ok (d : Block.dict) : bool :=
  bool_decide (is_Some (Block.d_index d))
  && bool_decide (is_Some (Block.d_timestamp d))
  && match Block.d_transactions d with
     | Some tds => forallb transaction_record_ok tds
     | None => false
     end
  && bool_decide (is_Some (Block.d_previous_hash d))
  && bool_decide (is_Some (Block.d_nonce d))
  && bool_decide (is_Some (Block.d_hash d)).

(** The records under [pending] and [chain], where these keys are
    present, are well formed. *)
Definition records_ok (d : Blockchain.dict) : bool :=
  forallb transaction_record_ok (get (Blockchain.d_pending d) [])
  && forallb block_record_ok (get (Blockchain.d_chain d) []).

(** ** Sessions from any ledger *)

Section Evolves.

Context {rt : Runtime}.

(** [evolves self self']: [self'] is obtained from [self], an arbitrary
    ledger, by calls of [add_user], [add_transaction] and [mine]. *)
Inductive evolves (self : Blockchain.t) : Blockchain.t -> Prop :=
  | evolves_refl : evolves self self
  | evolves_add_user (self' : Blockchain.t) (name : string) :
      evolves self self' -> evolves self (snd (Blockchain.add_user self' name))
  | evolves_add_transaction (self' : Blockchain.t) (sender recipient : string)
      (amount : number_arg) (note now : string) :
      evolves self self' ->
      evolves self
        (snd (Blockchain.add_transaction self' sender recipient amount note now))
  | evolves_mine (self' : Blockchain.t) (miner now_tx now_block : string) (fuel : nat) :
      evolves self self' ->
      evolves self (snd (Blockchain.mine self' miner now_tx now_block fuel)).

End Evolves.

(** The balance of [name] before [get_balance] rounds it. *)
Definition unrounded_balance (self : Blockchain.t) (name : string) : float :=
  fold_left apply_effect
    (flat_map (committed_effects name) (committed self)
     ++ flat_map (pending_effects name) (Blockchain.pending self))
    0%float.

(** The part of it that the chain alone gives. *)
Definition committed_balance (self : Blockchain.t) (name : string) : float :=
  fold_left apply_effect (flat_map (committed_effects name) (committed self)) 0%float.

(** The names [add_user] admits. *)
Definition admissible_name (name : string) : Prop :=
  name <> "" /\ Str.strip name = name /\ Str.upper name <> "SYSTEM".

(** A transaction record with all five keys and no other. *)
Definition transaction_record_complete (d : Transaction.dict) : Prop :=
  Transaction.d_other d = []
  /\ is_Some (Transaction.d_note d) /\ is_Some (Transaction.d_timestamp d).

(** ** The commands of the shell *)

(** [int(s)] for a [str]; [None] when it raises [ValueError]. *)
Class ShellRuntime : Type := {
  int_of_str : string -> option Z
}.

Module Shell.

Import BlockchainShell.

(** [self.bc = ledger] *)
Definition set_bc (self : BlockchainShell.t) (ledger : Blockchain.t) : BlockchainShell.t :=
  {| bc := ledger; current_user := current_user self |}.

(** An optional [str] argument that is neither [None] nor empty: the
    test [if not arg] fails on it. *)
Definition truthy (arg : option string) : option string :=
  match arg with
  | Some s => if (s =? "")%string then None else Some s
  | None => None
  end.

(** [BlockchainShell()]: a ledger of difficulty 2 and reward 10.0, and
    nobody logged in. *)
Definition __init__ {rt : Runtime} (now_tx now_block : string) : BlockchainShell.t :=
  {| bc := Blockchain.__init__ 2 10%float now_tx now_block; current_user := None |}.

Section Commands.

Context {rt : Runtime} {srt : ShellRuntime}.

(** Each command returns the lines it prints and the shell it leaves. *)

Definition do_create_user (self : BlockchainShell.t) (name : option string)
    : list string * BlockchainShell.t :=
  match truthy name with
  | None => (["Usage: create_user <name>"], self)
  | Some name =>
      let (ok, ledger) := Blockchain.add_user (bc self) name in
      if ok then (["User '" +:+ name +:+ "' created."], set_bc self ledger)
      else (["Could not create user '" +:+ name +:+
             "'. It may already exist or be invalid."], set_bc self ledger)
  end.

Definition do_login (self : BlockchainShell.t) (name : option string)
    : list string * BlockchainShell.t :=
  match truthy name with
  | None => (["Usage: login <name>"], self)
  | Some name =>
      if negb (bool_decide (name ∈ Blockchain.users (bc self)))
      then (["Unknown user '" +:+ name +:+ "'. Create it first with create_user."], self)
      else (["Logged in as '" +:+ name +:+ "'."],
            {| bc := bc self; current_user := Some name |})
  end.

Definition do_logout (self : BlockchainShell.t) : list string * BlockchainShell.t :=
  (["Logged out."], {| bc := bc self; current_user := None |}).

Definition do_faucet (self : BlockchainShell.t) (amount : option string) (now : string)
    : list string * BlockchainShell.t :=
  match truthy (current_user self) with
  | None => (["Login first."], self)
  | Some user =>
      match truthy amount with
      | None => (["Usage: faucet <amount>"], self)
      | Some amount =>
          let (err, ledger) :=
            Blockchain.add_transaction (bc self) "SYSTEM" user (OfStr amount) "Faucet" now in
          match truthy err with
          | Some err => (["Error: " +:+ err], set_bc self ledger)
          | None =>
              (["Added faucet of " +:+ amount +:+ " to " +:+ user +:+
                ". Use 'mine' to confirm."], set_bc self ledger)
          end
      end
  end.

(** [note] holds the words after the amount. *)
Definition do_send (self : BlockchainShell.t) (to amount : option string)
    (note : list string) (now : string) : list string * BlockchainShell.t :=
  match truthy (current_user self) with
  | None => (["Login first."], self)
  | Some user =>
      match truthy to, amount with
      | Some to, Some amount =>
          let note_str := String.concat " " note in
          let (err, ledger) :=
            Blockchain.add_transaction (bc self) user to (OfStr amount) note_str now in
          match truthy err with
          | Some err => (["Error: " +:+ err], set_bc self ledger)
          | None =>
              (["Added payment " +:+ amount +:+ " from " +:+ user +:+ " to " +:+ to +:+
                ". Use 'mine' to confirm."], set_bc self ledger)
          end
      | _, _ => (["Usage: send <to> <amount> [note...]"], self)
      end
  end.

(** An exception of [mine] leaves the command before it prints. *)
Definition do_mine (self : BlockchainShell.t) (now_tx now_block : string) (fuel : nat)
    : outcome (list string) * BlockchainShell.t :=
  match truthy (current_user self) with
  | None => (Returned ["Login first."], self)
  | Some user =>
      match Blockchain.mine (bc self) user now_tx now_block fuel with
      | (Returned block, ledger) =>
          (Returned ["Mined block #" +:+ pretty (Block.index block) +:+ " with " +:+
                     pretty (length (Block.transactions block)) +:+ " txs. Hash: " +:+
                     String.substring 0 16 (Block.hash block) +:+ "..."],
           set_bc self ledger)
      | (Raised e, ledger) => (Raised e, set_bc self ledger)
      | (Running, ledger) => (Running, set_bc self ledger)
      end
  end.

Definition do_difficulty (self : BlockchainShell.t) (new_value : option string)
    : list string * BlockchainShell.t :=
  match new_value with
  | None =>
      (["Current difficulty: " +:+ pretty (Blockchain.difficulty (bc self))], self)
  | Some new_value =>
      match int_of_str new_value with
      | None => (["Usage: difficulty [N]"], self)
      | Some n =>
          if (n <? 0) || (n >? 6)
          then (["Choose a small integer (0-6) for teaching purposes."], self)
          else
            (["Difficulty set to " +:+ pretty n +:+ "."],
             set_bc self
               {| Blockchain.chain := Blockchain.chain (bc self);
                  Blockchain.pending := Blockchain.pending (bc self);
                  Blockchain.users := Blockchain.users (bc self);
                  Blockchain.difficulty := Z.to_nat n;
                  Blockchain.reward := Blockchain.reward (bc self) |})
      end
  end.

Definition do_reward (self : BlockchainShell.t) (amount : option string)
    : list string * BlockchainShell.t :=
  match amount with
  | None => (["Current mining reward: " +:+ float_repr (Blockchain.reward (bc self))], self)
  | Some amount =>
      match float_of_str amount with
      | None => (["Usage: reward [AMOUNT]"], self)
      | Some r =>
          if (r <=? 0)%float then (["Reward must be positive."], self)
          else
            (["Mining reward set to " +:+ float_repr r +:+ "."],
             set_bc self
               {| Blockchain.chain := Blockchain.chain (bc self);
                  Blockchain.pending := Blockchain.pending (bc self);
                  Blockchain.users := Blockchain.users (bc self);
                  Blockchain.difficulty := Blockchain.difficulty (bc self);
                  Blockchain.reward := r |})
      end
  end.

(** [target = name or self.current_user] *)
Definition do_balance (self : BlockchainShell.t) (name : option string)
    : list string * BlockchainShell.t :=
  let target :=
    match truthy name with
    | Some name => Some name
    | None => current_user self
    end in
  match truthy target with
  | None => (["Usage: balance [name]  (default: current user)"], self)
  | Some target =>
      if negb (bool_decide (target ∈ Blockchain.users (bc self)))
         && negb (target =? "GENESIS")%string
      then (["Unknown user '" +:+ target +:+ "'."], self)
      else
        ([target +:+ " balance: " +:+ float_repr (Blockchain.get_balance (bc self) target)],
         self)
  end.

(** The shells a session reaches: from a new shell, by the commands
    above, and by [load] when [with_load] allows it. *)
Inductive reachable (with_load : bool) : BlockchainShell.t -> Prop :=
  | reach_new (now_tx now_block : string) :
      reachable with_load (__init__ now_tx now_block)
  | reach_create_user (self : BlockchainShell.t) (name : option string) :
      reachable with_load self -> reachable with_load (snd (do_create_user self name))
  | reach_login (self : BlockchainShell.t) (name : option string) :
      reachable with_load self -> reachable with_load (snd (do_login self name))
  | reach_logout (self : BlockchainShell.t) :
      reachable with_load self -> reachable with_load (snd (do_logout self))
  | reach_faucet (self : BlockchainShell.t) (amount : option string) (now : string) :
      reachable with_load self -> reachable with_load (snd (do_faucet self amount now))
  | reach_send (self : BlockchainShell.t) (to amount : option string)
      (note : list string) (now : string) :
      reachable with_load self ->
      reachable with_load (snd (do_send self to amount note now))
  | reach_mine (self : BlockchainShell.t) (now_tx now_block : string) (fuel : nat) :
      reachable with_load self ->
      reachable with_load (snd (do_mine self now_tx now_block fuel))
  | reach_difficulty (self : BlockchainShell.t) (new_value : option string) :
      reachable with_load self -> reachable with_load (snd (do_difficulty self new_value))
  | reach_reward (self : BlockchainShell.t) (amount : option string) :
      reachable with_load self -> reachable with_load (snd (do_reward self amount))
  | reach_balance (self : BlockchainShell.t) (name : option string) :
      reachable with_load self -> reachable with_load (snd (do_balance self name))
  | reach_load (self : BlockchainShell.t) (data : Blockchain.dict)
      (now_tx now_block : string) :
      with_load = true -> reachable with_load self ->
      reachable with_load (snd (do_load self data now_tx now_block)).

End Commands.

End Shell.

(** A reader of unsigned decimal integers, for the examples. *)
Module SampleShell.

#[export] Instance runtime : ShellRuntime :=
  {| int_of_str := fun s => if (s =? "")%string then None else Sample.digits s 0 |}.

End SampleShell.

(** One call of [add_user], [add_transaction] or [mine]. *)
Inductive ledger_step {rt : Runtime} (self : Blockchain.t) : Blockchain.t -> Prop :=
  | step_add_user (name : string) :
      ledger_step self (snd (Blockchain.add_user self name))
  | step_add_transaction (sender recipient : string) (amount : number_arg)
      (note now : string) :
      ledger_step self
        (snd (Blockchain.add_transaction self sender recipient amount note now))
  | step_mine (miner now_tx now_block : string) (fuel : nat) :
      ledger_step self (snd (Blockchain.mine self miner now_tx now_block fuel)).

(** ** An example session of the shell *)

Module ShellScenario.

Import Sample SampleShell.

Definition started : BlockchainShell.t :=
  Shell.__init__ "2025-01-01T09:00:00Z" "2025-01-01T09:00:00Z".

Definition logged_in : BlockchainShell.t :=
  snd (Shell.do_login (snd (Shell.do_create_user started (Some "alice"))) (Some "alice")).

Definition harder : BlockchainShell.t :=
  snd (Shell.do_difficulty
         (snd (Shell.do_faucet logged_in (Some "50") "2025-01-01T09:01:00Z"))
         (Some "1")).

Definition mined : BlockchainShell.t :=
  snd (Shell.do_mine harder "2025-01-01T09:02:00Z" "2025-01-01T09:02:00Z" 100).

End ShellScenario.

(** * Properties *)

Import Blockchain.

(** ** Basic facts about the string helpers *)

Lemma eqb_string_true (a b : string) : (a =? b)%string = true <-> a = b.
Proof. apply String.eqb_eq. Qed.

Lemma eqb_string_false (a b : string) : (a =? b)%string = false <-> a <> b.
Proof. apply String.eqb_neq. Qed.

Ltac case_str a b :=
  let E := fresh "E" in
  destruct (a =? b)%string eqn:E;
  [ apply eqb_string_true in E | apply eqb_string_false in E ].

(** Settles a decidable proposition about closed terms by evaluation. *)
Ltac by_evaluation :=
  lazymatch goal with
  | |- ¬ ?P => apply (bool_decide_eq_false_1 P); vm_compute; reflexivity
  | |- ?P => apply (bool_decide_eq_true_1 P); vm_compute; reflexivity
  end.

(** ** Mining with an unregistered miner *)

(** C6: for every ledger and every name that is not in [users],
    [mine(name)] raises [ValueError] -- an exception, where transaction
    admission returns a message -- and the ledger it leaves is the ledger
    it was given: [chain] and [pending] are as before the call. *)
Theorem mine_unregistered_raises {rt : Runtime} (self : Blockchain.t)
    (miner now_tx now_block : string) (fuel : nat) :
  miner ∉ users self ->
  mine self miner now_tx now_block fuel = (Raised ValueError, self)
  /\ chain (snd (mine self miner now_tx now_block fuel)) = chain self
  /\ pending (snd (mine self miner now_tx now_block fuel)) = pending self.
Proof.
  intros Hminer.
  assert (Hmine : mine self miner now_tx now_block fuel = (Raised ValueError, self)).
  { unfold mine. rewrite bool_decide_eq_false_2 by exact Hminer. reflexivity. }
  rewrite Hmine. auto.
Qed.

Lemma mine_unregistered_raises_witness :
  ("carol" ∉ users Scenario.funded)
  /\ mine (rt := Sample.runtime) Scenario.funded "carol"
       "2025-01-01T09:02:00Z" "2025-01-01T09:02:00Z" 100
     = (Raised ValueError, Scenario.funded).
Proof.
  assert (Hcarol : "carol" ∉ users Scenario.funded).
  { by_evaluation. }
  split; [exact Hcarol|].
  exact (proj1 (mine_unregistered_raises Scenario.funded "carol"
                  "2025-01-01T09:02:00Z" "2025-01-01T09:02:00Z" 100 Hcarol)).
Defined.

(** ** User registration *)

Lemma add_user_true_iff (self : Blockchain.t) (name : string) :
  fst (add_user self name) = true
  <-> Str.strip name <> "" /\ Str.upper (Str.strip name) <> "SYSTEM"
      /\ Str.strip name ∉ users self.
Proof.
  unfold add_user.
  case_str (Str.strip name) ""; cbn [orb].
  - split; [discriminate | intros [? _]; contradiction].
  - case_str (Str.upper (Str.strip name)) "SYSTEM".
    + split; [discriminate | intros (_ & ? & _); contradiction].
    + case_bool_decide; cbn.
      * split; [discriminate | intros (_ & _ & ?); contradiction].
      * split; auto.
Qed.

Lemma add_user_ledger (self : Blockchain.t) (name : string) :
  snd (add_user self name) =
  if fst (add_user self name)
  then set_users self ({[ Str.strip name ]} ∪ users self) else self.
Proof.
  unfold add_user.
  destruct ((Str.strip name =? "")%string || (Str.upper (Str.strip name) =? "SYSTEM")%string);
    [reflexivity|].
  case_bool_decide; reflexivity.
Qed.

(** C10: registration rejects a name exactly when its trimmed form is
    empty, is SYSTEM up to letter case, or is registered already; so the
    names rejected on every ledger are the empty one and SYSTEM (trimmed,
    compared without case) and no other. In particular GENESIS, while not
    yet registered, is accepted and becomes a member of [users]. *)
Theorem add_user_reserved_names :
  (forall (self : Blockchain.t) (name : string),
     fst (add_user self name) = true
     <-> Str.strip name <> "" /\ Str.upper (Str.strip name) <> "SYSTEM"
         /\ Str.strip name ∉ users self)
  /\ (forall name : string,
        (forall self : Blockchain.t, fst (add_user self name) = false)
        <-> Str.strip name = "" \/ Str.upper (Str.strip name) = "SYSTEM")
  /\ (forall self : Blockchain.t,
        "GENESIS" ∉ users self ->
        add_user self "GENESIS"
        = (true, set_users self ({[ "GENESIS" ]} ∪ users self))
        /\ "GENESIS" ∈ users (snd (add_user self "GENESIS"))).
Proof.
  split; [exact add_user_true_iff|]. split.
  - intros name. split.
    + intros Hall.
      specialize (Hall (Blockchain.mk [] [] ∅ 0 0%float)).
      apply not_true_iff_false in Hall. rewrite add_user_true_iff in Hall.
      case_str (Str.strip name) ""; [now left|].
      case_str (Str.upper (Str.strip name)) "SYSTEM"; [now right|].
      exfalso. apply Hall. repeat split; auto. cbn. set_solver.
    + intros Hres self. apply not_true_iff_false. rewrite add_user_true_iff.
      intros (? & ? & _). destruct Hres; contradiction.
  - intros self Hgen.
    assert (Hok : fst (add_user self "GENESIS") = true).
    { apply add_user_true_iff. cbn. repeat split; [discriminate..|exact Hgen]. }
    pose proof (add_user_ledger self "GENESIS") as Hled.
    rewrite Hok in Hled. change (Str.strip "GENESIS") with "GENESIS" in Hled.
    destruct (add_user self "GENESIS") as [ok self'] eqn:Hadd. cbn in *. subst.
    split; [reflexivity|]. cbn. set_solver.
Qed.

Lemma add_user_reserved_names_witness :
  ("GENESIS" ∉ users Scenario.registered)
  /\ fst (add_user Scenario.registered "GENESIS") = true
  /\ "GENESIS" ∈ users (snd (add_user Scenario.registered "GENESIS")).
Proof.
  assert (Hgen : "GENESIS" ∉ users Scenario.registered).
  { by_evaluation. }
  destruct (proj2 (proj2 add_user_reserved_names) Scenario.registered Hgen) as [Hadd Hin].
  split; [exact Hgen|]. split; [|exact Hin].
  rewrite Hadd. reflexivity.
Defined.

(** ** Transaction admission: what it may change *)

(** What [add_transaction] checked when it answers [None]. *)
Lemma add_transaction_accepted {rt : Runtime} (self self' : Blockchain.t)
    (sender recipient : string) (amount : number_arg) (note now : string) :
  add_transaction self sender recipient amount note now = (None, self') ->
  exists x : float,
    to_float amount = Some x
    /\ (x <=? 0)%float = false
    /\ (sender = "SYSTEM" \/ sender ∈ users self)
    /\ (recipient ∈ users self \/ recipient = "GENESIS")
    /\ (sender = "SYSTEM" \/ (get_balance self sender <? x)%float = false)
    /\ self' = set_pending self
                 (pending self ++ [Transaction.mk sender recipient x note now]).
Proof.
  unfold add_transaction.
  destruct (to_float amount) as [x|]; [|discriminate].
  destruct (x <=? 0)%float eqn:Hpos; [discriminate|].
  case_str sender "SYSTEM"; cbn [negb andb].
  - case_bool_decide as Hr; cbn [negb andb].
    + intros [= <-]. exists x. repeat split; auto.
    + case_str recipient "GENESIS"; cbn [negb]; [|discriminate].
      intros [= <-]. exists x. repeat split; auto.
  - case_bool_decide as Hs; cbn [negb]; [|discriminate].
    assert (Hrcp : forall k : option string * Blockchain.t,
              (if (get_balance self sender <? x)%float
               then (Some ("Insufficient funds: " +:+ sender +:+ " has " +:+
                           float_repr (get_balance self sender) +:+ "."), self)
               else k) = (None, self') ->
              (get_balance self sender <? x)%float = false /\ k = (None, self')).
    { intros k. destruct (get_balance self sender <? x)%float; [discriminate | auto]. }
    case_bool_decide as Hr; cbn [negb andb].
    + intros Hk. apply Hrcp in Hk as [Hbal [= <-]]. exists x. repeat split; auto.
    + case_str recipient "GENESIS"; cbn [negb]; [|discriminate].
      intros Hk. apply Hrcp in Hk as [Hbal [= <-]]. exists x. repeat split; auto.
Qed.

(** What [add_transaction] leaves when it answers with a message. *)
Lemma add_transaction_rejected {rt : Runtime} (self self' : Blockchain.t)
    (sender recipient : string) (amount : number_arg) (note now msg : string) :
  add_transaction self sender recipient amount note now = (Some msg, self') ->
  self' = self.
Proof.
  unfold add_transaction.
  destruct (to_float amount) as [x|]; [|intros [= _ <-]; reflexivity].
  repeat match goal with
         | |- context [if ?c then _ else _] =>
             destruct c; [intros [= _ <-]; reflexivity|]
         end.
  discriminate.
Qed.

(** C5: a call of [add_transaction] that fails (returns a message)
    leaves the whole ledger as it was; a call that succeeds (returns
    [None]) appends exactly one transaction, made of its arguments, to
    [pending] and leaves [chain], [users], [difficulty] and [reward] as
    they were. *)
Theorem add_transaction_frame {rt : Runtime} (self : Blockchain.t)
    (sender recipient : string) (amount : number_arg) (note now : string) :
  match add_transaction self sender recipient amount note now with
  | (Some _, self') => self' = self
  | (None, self') =>
      chain self' = chain self /\ users self' = users self
      /\ difficulty self' = difficulty self /\ reward self' = reward self
      /\ exists x, to_float amount = Some x
           /\ pending self' =
              (pending self ++ [Transaction.mk sender recipient x note now])%list
  end.
Proof.
  destruct (add_transaction self sender recipient amount note now)
    as [[msg|] self'] eqn:Hadd.
  - exact (add_transaction_rejected _ _ _ _ _ _ _ _ Hadd).
  - apply add_transaction_accepted in Hadd as (x & Hx & _ & _ & _ & _ & ->).
    repeat split. exists x. split; [exact Hx | reflexivity].
Qed.

Lemma add_transaction_chain {rt : Runtime} (self : Blockchain.t)
    (sender recipient : string) (amount : number_arg) (note now : string) :
  chain (snd (add_transaction self sender recipient amount note now)) = chain self
  /\ users (snd (add_transaction self sender recipient amount note now)) = users self.
Proof.
  destruct (add_transaction self sender recipient amount note now)
    as [[msg|] self'] eqn:Hadd; cbn.
  - apply add_transaction_rejected in Hadd as ->. auto.
  - apply add_transaction_accepted in Hadd as (x & _ & _ & _ & _ & _ & ->). auto.
Qed.

(** ** The proof-of-work loop *)

Section ProofOfWork.

Context {rt : Runtime}.

Lemma next_nonce_fields (block : Block.t) :
  Block.index (next_nonce block) = Block.index block
  /\ Block.timestamp (next_nonce block) = Block.timestamp block
  /\ Block.transactions (next_nonce block) = Block.transactions block
  /\ Block.previous_hash (next_nonce block) = Block.previous_hash block
  /\ Block.nonce (next_nonce block) = Block.nonce block + 1.
Proof. repeat split. Qed.

Lemma next_nonce_hash_valid (block : Block.t) : hash_valid (next_nonce block).
Proof. reflexivity. Qed.

Lemma attempt_S (block : Block.t) (k : nat) :
  attempt block (S k) = attempt (next_nonce block) k.
Proof. unfold attempt. apply Nat.iter_succ_r. Qed.

Lemma attempt_fields (block : Block.t) (k : nat) :
  Block.index (attempt block k) = Block.index block
  /\ Block.timestamp (attempt block k) = Block.timestamp block
  /\ Block.transactions (attempt block k) = Block.transactions block
  /\ Block.previous_hash (attempt block k) = Block.previous_hash block
  /\ Block.nonce (attempt block k) = Block.nonce block + Z.of_nat k.
Proof.
  induction k as [|k IH].
  - cbn. repeat split. lia.
  - destruct IH as (Hi & Ht & Hx & Hp & Hn).
    change (attempt block (S k)) with (next_nonce (attempt block k)).
    destruct (next_nonce_fields (attempt block k)) as (-> & -> & -> & -> & ->).
    repeat split; try assumption. lia.
Qed.

Lemma attempt_hash_valid (block : Block.t) (k : nat) :
  hash_valid block -> hash_valid (attempt block k).
Proof.
  destruct k as [|k]; [auto|]. intros _.
  change (attempt block (S k)) with (next_nonce (attempt block k)).
  apply next_nonce_hash_valid.
Qed.

(** The loop returns the first attempt whose hash has the prefix, once
    the fuel reaches it, and is still running before. *)
Lemma proof_of_work_first (target : string) (k : nat) :
  forall block : Block.t,
    Str.startswith (Block.hash (attempt block k)) target = true ->
    exists j : nat,
      (j <= k)%nat
      /\ Str.startswith (Block.hash (attempt block j)) target = true
      /\ forall fuel : nat,
           proof_of_work fuel target block =
           if (j <=? fuel)%nat then Some (attempt block j) else None.
Proof.
  induction k as [|k IH]; intros block Hk.
  - exists 0%nat. split; [lia|]. split; [exact Hk|].
    intros fuel. cbn in Hk. destruct fuel; cbn; rewrite Hk; reflexivity.
  - destruct (Str.startswith (Block.hash block) target) eqn:Hb.
    + exists 0%nat. split; [lia|]. split; [exact Hb|].
      intros fuel. destruct fuel; cbn; rewrite Hb; reflexivity.
    + rewrite attempt_S in Hk. destruct (IH _ Hk) as (j & Hj & Hacc & Hrun).
      exists (S j). split; [lia|]. rewrite attempt_S. split; [exact Hacc|].
      intros [|fuel]; cbn [proof_of_work]; rewrite Hb; cbn [negb].
      * reflexivity.
      * rewrite Hrun. reflexivity.
Qed.

(** What the loop returns is an attempt within the fuel, and its hash
    has the prefix. *)
Lemma proof_of_work_returns (target : string) (fuel : nat) :
  forall block found : Block.t,
    proof_of_work fuel target block = Some found ->
    Str.startswith (Block.hash found) target = true
    /\ exists k : nat, (k <= fuel)%nat /\ found = attempt block k
         /\ forall i : nat, (i < k)%nat ->
              Str.startswith (Block.hash (attempt block i)) target = false.
Proof.
  induction fuel as [|fuel IH]; intros block found; cbn [proof_of_work];
    destruct (Str.startswith (Block.hash block) target) eqn:Hb; cbn [negb].
  - intros [= <-]. split; [exact Hb|]. exists 0%nat. repeat split; [lia..].
  - discriminate.
  - intros [= <-]. split; [exact Hb|]. exists 0%nat. repeat split; [lia..].
  - intros Hrec. destruct (IH _ _ Hrec) as (Hacc & k & Hk & -> & Hbefore).
    split; [exact Hacc|]. exists (S k). split; [lia|].
    split; [symmetry; apply attempt_S|].
    intros [|i] Hi; [exact Hb|]. rewrite attempt_S. apply Hbefore. lia.
Qed.

Lemma prefix_length (p s : string) :
  String.prefix p s = true -> (String.length p <= String.length s)%nat.
Proof.
  revert s. induction p as [|a p IH]; intros s; [cbn; lia|].
  destruct s as [|b s]; cbn; [discriminate|].
  destruct (ascii_dec a b); [|discriminate].
  intros Hp. apply IH in Hp. lia.
Qed.

Lemma repeat_length (c : ascii) (n : nat) : String.length (Str.repeat c n) = n.
Proof. induction n; cbn; congruence. Qed.

Lemma startswith_leading_zeros (n : nat) (s : string) :
  Str.startswith s (Str.repeat "0" n) = true -> leading_zeros n s.
Proof.
  unfold Str.startswith, leading_zeros. revert s.
  induction n as [|n IH]; intros s Hp i Hi; [lia|].
  revert Hp. destruct s as [|b s]; cbn [String.prefix Str.repeat]; [discriminate|].
  destruct (ascii_dec "0" b) as [<-|]; [|discriminate]. intros Hp.
  destruct i as [|i]; [reflexivity|]. cbn. apply IH; [exact Hp | lia].
Qed.

Lemma startswith_empty (s : string) : Str.startswith s "" = true.
Proof. destruct s; reflexivity. Qed.

Lemma new_block_hash_valid (self : Blockchain.t) (previous_hash : string)
    (transactions : list Transaction.t) (now : string) :
  hash_valid (_new_block self previous_hash transactions now).
Proof. reflexivity. Qed.

(** The hash of the [k]-th attempt on the block [mine] builds. *)
Lemma attempt_candidate_hash (self : Blockchain.t) (miner now_tx now_block : string)
    (last_block : Block.t) (k : nat) :
  Block.hash
    (attempt (_new_block self (Block.hash last_block)
                (pending self ++ [reward_tx self miner now_tx]) now_block) k)
  = candidate_hash self miner now_tx now_block last_block k.
Proof.
  set (block := _new_block _ _ _ _).
  pose proof (attempt_hash_valid block k (new_block_hash_valid _ _ _ _)) as Hv.
  destruct (attempt_fields block k) as (Hi & Ht & Hx & Hp & Hn).
  rewrite Hv, Hi, Ht, Hx, Hp, Hn. unfold candidate_hash. cbn.
  f_equal.
Qed.

End ProofOfWork.

(** ** Mining *)

Section Mining.

Context {rt : Runtime}.

(** The ledger [mine] leaves when it returns [block]. *)
Lemma committed_fields (self : Blockchain.t) (block : Block.t) :
  set_pending (set_chain self (chain self ++ [block])) []
  = {| chain := chain self ++ [block]; pending := []; users := users self;
       difficulty := difficulty self; reward := reward self |}.
Proof. reflexivity. Qed.

(** Every way [mine] can end, read off its branches. *)
Lemma mine_cases (self : Blockchain.t) (miner now_tx now_block : string) (fuel : nat) :
  ((miner ∉ users self)
   /\ mine self miner now_tx now_block fuel = (Raised ValueError, self))
  \/ (miner ∈ users self /\ last (chain self) = None
      /\ mine self miner now_tx now_block fuel = (Raised IndexError, self))
  \/ (exists last_block : Block.t,
        miner ∈ users self /\ last (chain self) = Some last_block
        /\ let candidate :=
             _new_block self (Block.hash last_block)
               (pending self ++ [reward_tx self miner now_tx]) now_block in
           match proof_of_work fuel (Str.repeat "0" (difficulty self)) candidate with
           | None => mine self miner now_tx now_block fuel = (Running, self)
           | Some block =>
               mine self miner now_tx now_block fuel
               = (Returned block, set_pending (set_chain self (chain self ++ [block])) [])
           end).
Proof.
  unfold mine. case_bool_decide as Hminer; cbn [negb].
  - destruct (last (chain self)) as [last_block|] eqn:Hlast.
    + right; right. exists last_block. split; [exact Hminer|]. split; [reflexivity|].
      cbn zeta. fold (reward_tx self miner now_tx).
      destruct (proof_of_work fuel _ _); reflexivity.
    + right; left. auto.
  - left. auto.
Qed.

Lemma mine_returned (self self' : Blockchain.t) (miner now_tx now_block : string)
    (fuel : nat) (block : Block.t) :
  mine self miner now_tx now_block fuel = (Returned block, self') ->
  exists last_block : Block.t,
    miner ∈ users self /\ last (chain self) = Some last_block
    /\ proof_of_work fuel (Str.repeat "0" (difficulty self))
         (_new_block self (Block.hash last_block)
            (pending self ++ [reward_tx self miner now_tx]) now_block) = Some block
    /\ self' = set_pending (set_chain self (chain self ++ [block])) [].
Proof.
  intros Hmine.
  destruct (mine_cases self miner now_tx now_block fuel)
    as [[_ Hm] | [(_ & _ & Hm) | (last_block & Hminer & Hlast & Hm)]].
  - rewrite Hm in Hmine. discriminate Hmine.
  - rewrite Hm in Hmine. discriminate Hmine.
  - exists last_block. split; [exact Hminer|]. split; [exact Hlast|].
    cbn zeta in Hm. destruct (proof_of_work fuel _ _) as [found|].
    + rewrite Hm in Hmine. injection Hmine as <- <-. auto.
    + rewrite Hm in Hmine. discriminate Hmine.
Qed.

(** C2: the block a successful [mine] returns stores the digest the
    Hasher computes from its stored [index], [timestamp], [transactions],
    [previous_hash] and [nonce]; that hash starts with [difficulty]
    characters 0; and when [difficulty] is 0 the nonce is still 0. With
    [difficulty] 0, moreover, [mine] returns without a single turn of the
    search loop (with no fuel at all): the block it returns carries the
    first hash computed. *)
Theorem mined_block_proof_of_work (self : Blockchain.t)
    (miner now_tx now_block : string) :
  (forall (fuel : nat) (block : Block.t) (self' : Blockchain.t),
     mine self miner now_tx now_block fuel = (Returned block, self') ->
     hash_valid block
     /\ Str.startswith (Block.hash block) (Str.repeat "0" (difficulty self)) = true
     /\ leading_zeros (difficulty self) (Block.hash block)
     /\ (difficulty self = 0%nat -> Block.nonce block = 0))
  /\ (forall last_block : Block.t,
        difficulty self = 0%nat -> miner ∈ users self ->
        last (chain self) = Some last_block ->
        forall fuel : nat,
          fst (mine self miner now_tx now_block fuel)
          = Returned (_new_block self (Block.hash last_block)
                        (pending self ++ [reward_tx self miner now_tx]) now_block)).
Proof.
  split.
  - intros fuel block self' Hmine.
    destruct (mine_returned _ _ _ _ _ _ _ Hmine) as (last_block & _ & _ & Hpow & _).
    destruct (proof_of_work_returns _ _ _ _ Hpow) as (Hacc & k & _ & -> & Hbefore).
    split; [apply attempt_hash_valid, new_block_hash_valid|].
    split; [exact Hacc|]. split; [apply startswith_leading_zeros, Hacc|].
    intros Hzero. destruct k as [|k].
    + reflexivity.
    + specialize (Hbefore 0%nat ltac:(lia)). rewrite Hzero in Hbefore.
      change (Str.repeat "0" 0) with "" in Hbefore.
      rewrite startswith_empty in Hbefore. discriminate Hbefore.
  - intros last_block Hzero Hminer Hlast fuel.
    destruct (mine_cases self miner now_tx now_block fuel)
      as [[Hno _] | [(_ & Hnone & _) | (last_block' & _ & Hlast' & Hm)]].
    + contradiction.
    + congruence.
    + assert (last_block' = last_block) as -> by congruence.
      cbn zeta in Hm. rewrite Hzero in Hm.
      assert (Hpow : forall b, proof_of_work fuel (Str.repeat "0" 0) b = Some b).
      { intros b. destruct fuel; cbn; rewrite startswith_empty; reflexivity. }
      rewrite Hpow in Hm. rewrite Hm. reflexivity.
Qed.

(** C1, as the code has it: on a ledger whose chain has a last block,
    for a registered miner, if some nonce [k] gives the candidate block a
    digest that starts with [difficulty] characters 0, then [mine] returns
    as soon as its search has run [j] turns, for a [j <= k]; it returns a
    block whose transactions are the pending ones, in their order,
    followed by the reward transaction (SYSTEM to the miner, the ledger's
    [reward], note "Mining reward"), so N + 1 of them for N pending; the
    ledger it leaves has that one block appended to [chain], an empty
    [pending], and the same users, difficulty and reward; and as long as
    the search is running the ledger is the one [mine] was given. *)
Theorem mine_commits_pending (self : Blockchain.t) (miner now_tx now_block : string)
    (last_block : Block.t) (k : nat) :
  miner ∈ users self ->
  last (chain self) = Some last_block ->
  Str.startswith (candidate_hash self miner now_tx now_block last_block k)
    (Str.repeat "0" (difficulty self)) = true ->
  exists (j : nat) (block : Block.t),
    (j <= k)%nat
    /\ Block.transactions block
       = (pending self
          ++ [Transaction.mk "SYSTEM" miner (reward self) "Mining reward" now_tx])%list
    /\ length (Block.transactions block) = S (length (pending self))
    /\ (forall fuel : nat, (j <= fuel)%nat ->
          mine self miner now_tx now_block fuel
          = (Returned block,
             {| chain := chain self ++ [block]; pending := []; users := users self;
                difficulty := difficulty self; reward := reward self |}))
    /\ (forall fuel : nat, (fuel < j)%nat ->
          mine self miner now_tx now_block fuel = (Running, self)).
Proof.
  intros Hminer Hlast Hk.
  set (candidate := _new_block self (Block.hash last_block)
                      (pending self ++ [reward_tx self miner now_tx]) now_block).
  rewrite <- attempt_candidate_hash in Hk. fold candidate in Hk.
  destruct (proof_of_work_first _ _ _ Hk) as (j & Hj & _ & Hrun).
  assert (Htxs : Block.transactions (attempt candidate j)
                 = (pending self ++ [reward_tx self miner now_tx])%list).
  { destruct (attempt_fields candidate j) as (_ & _ & -> & _). reflexivity. }
  exists j, (attempt candidate j). split; [exact Hj|]. split; [exact Htxs|].
  split; [rewrite Htxs, length_app; cbn; lia|].
  assert (Hmine : forall fuel,
            match proof_of_work fuel (Str.repeat "0" (difficulty self)) candidate with
            | None => mine self miner now_tx now_block fuel = (Running, self)
            | Some block =>
                mine self miner now_tx now_block fuel
                = (Returned block, set_pending (set_chain self (chain self ++ [block])) [])
            end).
  { intros fuel.
    destruct (mine_cases self miner now_tx now_block fuel)
      as [[Hno _] | [(_ & Hnone & _) | (last_block' & _ & Hlast' & Hm)]].
    - contradiction.
    - congruence.
    - assert (last_block' = last_block) as -> by congruence. exact Hm. }
  split; intros fuel Hfuel; specialize (Hmine fuel); rewrite Hrun in Hmine.
  - rewrite (proj2 (Nat.leb_le j fuel)) in Hmine by exact Hfuel.
    rewrite Hmine, committed_fields. reflexivity.
  - rewrite (proj2 (Nat.leb_gt j fuel)) in Hmine by exact Hfuel. exact Hmine.
Qed.

(** No digest of 64 characters has a prefix of more than 64 zeros. *)
Lemma proof_of_work_too_hard (n fuel : nat) :
  (64 < n)%nat ->
  forall block : Block.t,
    String.length (Block.hash block) = 64%nat ->
    proof_of_work fuel (Str.repeat "0" n) block = None.
Proof.
  intros Hn. induction fuel as [|fuel IH]; intros block Hlen; cbn [proof_of_work];
    destruct (Str.startswith (Block.hash block) (Str.repeat "0" n)) eqn:Hb; cbn [negb];
    try (apply prefix_length in Hb; rewrite repeat_length, Hlen in Hb; lia).
  - reflexivity.
  - apply IH. apply sha256_hexdigest_length.
Qed.

Lemma too_hard_fields :
  difficulty too_hard = 65%nat /\ "alice" ∈ users too_hard.
Proof.
  unfold too_hard. rewrite add_user_ledger.
  set (fresh := __init__ _ _ _ _).
  assert (Hok : fst (add_user fresh "alice") = true).
  { apply add_user_true_iff. cbn. repeat split; [discriminate..|set_solver]. }
  rewrite Hok. split; [reflexivity|]. cbn. set_solver.
Qed.

Lemma too_hard_runs_forever (fuel : nat) :
  mine too_hard "alice" "2025-01-01T09:02:00Z" "2025-01-01T09:02:00Z" fuel
  = (Running, too_hard).
Proof.
  destruct too_hard_fields as [Hdiff Halice].
  destruct (mine_cases too_hard "alice" "2025-01-01T09:02:00Z" "2025-01-01T09:02:00Z" fuel)
    as [[Hno _] | [(_ & Hnone & _) | (last_block & _ & _ & Hm)]].
  - contradiction.
  - unfold too_hard in Hnone. rewrite add_user_ledger in Hnone.
    destruct (fst (add_user _ _)); discriminate Hnone.
  - cbn zeta in Hm. rewrite proof_of_work_too_hard in Hm; [exact Hm | lia |].
    apply sha256_hexdigest_length.
Qed.

End Mining.

Lemma mined_block_proof_of_work_witness :
  exists (block : Block.t) (self' : Blockchain.t),
    mine (rt := Sample.runtime) Scenario.funded "alice"
      "2025-01-01T09:02:00Z" "2025-01-01T09:02:00Z" 100 = (Returned block, self')
    /\ hash_valid (rt := Sample.runtime) block
    /\ leading_zeros (difficulty Scenario.funded) (Block.hash block).
Proof.
  destruct (mine (rt := Sample.runtime) Scenario.funded "alice"
              "2025-01-01T09:02:00Z" "2025-01-01T09:02:00Z" 100)
    as [[block|e|] self'] eqn:Hmine.
  - exists block, self'. split; [reflexivity|].
    destruct (proj1 (mined_block_proof_of_work Scenario.funded "alice"
                       "2025-01-01T09:02:00Z" "2025-01-01T09:02:00Z")
                _ _ _ Hmine) as (Hvalid & _ & Hzeros & _).
    split; [exact Hvalid | exact Hzeros].
  - exfalso. vm_compute in Hmine. discriminate Hmine.
  - exfalso. vm_compute in Hmine. discriminate Hmine.
Defined.

Lemma mine_commits_pending_witness :
  ("alice" ∈ users Scenario.funded)
  /\ last (chain Scenario.funded) = Some Scenario.funded_last
  /\ Str.startswith
       (candidate_hash (rt := Sample.runtime) Scenario.funded "alice"
          "2025-01-01T09:02:00Z" "2025-01-01T09:02:00Z" Scenario.funded_last 17)
       (Str.repeat "0" (difficulty Scenario.funded)) = true
  /\ exists block : Block.t,
       length (Block.transactions block) = S (length (pending Scenario.funded))
       /\ mine (rt := Sample.runtime) Scenario.funded "alice"
            "2025-01-01T09:02:00Z" "2025-01-01T09:02:00Z" 100
          = (Returned block,
             {| chain := chain Scenario.funded ++ [block]; pending := [];
                users := users Scenario.funded;
                difficulty := difficulty Scenario.funded;
                reward := reward Scenario.funded |}).
Proof.
  assert (Hminer : "alice" ∈ users Scenario.funded) by by_evaluation.
  assert (Hlast : last (chain Scenario.funded) = Some Scenario.funded_last)
    by (vm_compute; reflexivity).
  assert (Hk : Str.startswith
                 (candidate_hash (rt := Sample.runtime) Scenario.funded "alice"
                    "2025-01-01T09:02:00Z" "2025-01-01T09:02:00Z" Scenario.funded_last 17)
                 (Str.repeat "0" (difficulty Scenario.funded)) = true)
    by (vm_compute; reflexivity).
  split; [exact Hminer|]. split; [exact Hlast|]. split; [exact Hk|].
  destruct (mine_commits_pending Scenario.funded "alice"
              "2025-01-01T09:02:00Z" "2025-01-01T09:02:00Z" Scenario.funded_last 17
              Hminer Hlast Hk) as (j & block & Hj & _ & Hlen & Hreturns & _).
  exists block. split; [exact Hlen|]. apply Hreturns. lia.
Defined.

(** C1 fails as stated, for two kinds of ledger. On a ledger with
    [difficulty] 65 (here a fresh one with alice registered) the search
    of [mine("alice")] is still running after any number of turns,
    whatever the digest function, and nothing is appended. On a ledger
    with an empty [chain] (what [from_dict] builds from a snapshot with no
    [chain] key) [mine("alice")] raises [IndexError]. *)
Lemma mine_without_block :
  (forall (rt : Runtime) (fuel : nat),
     "alice" ∈ users too_hard
     /\ mine too_hard "alice" "2025-01-01T09:02:00Z" "2025-01-01T09:02:00Z" fuel
        = (Running, too_hard))
  /\ (forall (rt : Runtime) (now_tx now_block : string) (fuel : nat),
        from_dict snapshot_without_chain now_tx now_block = inr ledger_without_chain
        /\ "alice" ∈ users ledger_without_chain
        /\ mine ledger_without_chain "alice" now_tx now_block fuel
           = (Raised IndexError, ledger_without_chain)).
Proof.
  split.
  - intros rt fuel. split; [apply too_hard_fields | apply too_hard_runs_forever].
  - intros rt now_tx now_block fuel.
    assert (Halice : "alice" ∈ users ledger_without_chain) by (cbn; set_solver).
    split; [reflexivity|]. split; [exact Halice|].
    destruct (mine_cases ledger_without_chain "alice" now_tx now_block fuel)
      as [[Hno _] | [(_ & _ & Hm) | (last_block & _ & Hlast & _)]].
    + contradiction.
    + exact Hm.
    + discriminate Hlast.
Qed.

(** ** The shape of the chain *)

Section ChainShape.

Context {rt : Runtime}.

Lemma well_linked_snoc (chain : list Block.t) (last_block block : Block.t) :
  well_linked chain ->
  last chain = Some last_block ->
  Block.index block = Z.of_nat (length chain) ->
  Block.previous_hash block = Block.hash last_block ->
  well_linked (chain ++ [block]).
Proof.
  intros [Hindex Hprev] Hlast Hi Hp. rewrite last_lookup in Hlast. split.
  - intros i b Hb. apply lookup_app_Some in Hb as [Hb | [Hlen Hb]].
    + eauto.
    + apply list_lookup_singleton_Some in Hb as [Hz <-]. rewrite Hi. f_equal. lia.
  - intros i before b Hbefore Hb.
    apply lookup_app_Some in Hb as [Hb | [Hlen Hb]].
    + apply lookup_app_Some in Hbefore as [Hbefore | [Hlen' _]].
      * eauto.
      * apply lookup_lt_Some in Hb. lia.
    + apply list_lookup_singleton_Some in Hb as [Hz <-].
      assert (i = pred (length chain)) as -> by lia.
      rewrite lookup_app_l in Hbefore by (destruct chain; cbn in *; [discriminate Hlast | lia]).
      rewrite Hp. congruence.
Qed.

Lemma init_chain (difficulty : Z) (reward : float) (now_tx now_block : string) :
  exists genesis : Block.t,
    chain (__init__ difficulty reward now_tx now_block) = [genesis]
    /\ is_genesis genesis.
Proof.
  eexists. split; [reflexivity|]. repeat split. eexists. reflexivity.
Qed.

Lemma add_user_chain (self : Blockchain.t) (name : string) :
  chain (snd (add_user self name)) = chain self
  /\ pending (snd (add_user self name)) = pending self.
Proof. rewrite add_user_ledger. destruct (fst (add_user self name)); auto. Qed.

(** [mine] leaves the chain as it was or appends one block that
    continues it. *)
Lemma mine_chain (self : Blockchain.t) (miner now_tx now_block : string) (fuel : nat) :
  snd (mine self miner now_tx now_block fuel) = self
  \/ exists last_block block : Block.t,
       last (chain self) = Some last_block
       /\ miner ∈ users self
       /\ snd (mine self miner now_tx now_block fuel)
          = set_pending (set_chain self (chain self ++ [block])) []
       /\ Block.index block = Z.of_nat (length (chain self))
       /\ Block.previous_hash block = Block.hash last_block
       /\ Block.transactions block
          = (pending self ++ [reward_tx self miner now_tx])%list.
Proof.
  destruct (mine_cases self miner now_tx now_block fuel)
    as [[_ Hm] | [(_ & _ & Hm) | (last_block & Hminer & Hlast & Hm)]];
    try (left; rewrite Hm; reflexivity).
  cbn zeta in Hm. destruct (proof_of_work fuel _ _) as [block|] eqn:Hpow.
  - right. exists last_block, block.
    destruct (proof_of_work_returns _ _ _ _ Hpow) as (_ & k & _ & -> & _).
    destruct (attempt_fields
                (_new_block self (Block.hash last_block)
                   (pending self ++ [reward_tx self miner now_tx]) now_block) k)
      as (Hi & _ & Hx & Hp & _).
    rewrite Hm. repeat split; assumption.
  - left. rewrite Hm. reflexivity.
Qed.

Lemma reachable_chain (self : Blockchain.t) :
  reachable self ->
  (exists (genesis : Block.t) (rest : list Block.t),
     chain self = genesis :: rest /\ is_genesis genesis)
  /\ well_linked (chain self).
Proof.
  induction 1 as [d r now_tx now_block | self name _ IH
                 | self sender recipient amount note now _ IH
                 | self miner now_tx now_block fuel _ IH].
  - destruct (init_chain d r now_tx now_block) as (genesis & -> & Hgen). split.
    + exists genesis, []. auto.
    + destruct Hgen as (Hindex & _). split.
      * intros [|i] b Hb; [|discriminate Hb]. injection Hb as <-. exact Hindex.
      * intros [|i] ? ? ? Hb; discriminate Hb.
  - destruct (add_user_chain self name) as [-> _]. exact IH.
  - destruct (add_transaction_chain self sender recipient amount note now) as [-> _].
    exact IH.
  - destruct (mine_chain self miner now_tx now_block fuel)
      as [-> | (last_block & block & Hlast & _ & -> & Hi & Hp & _)]; [exact IH|].
    destruct IH as [(genesis & rest & Hchain & Hgen) Hlinked]. cbn. split.
    + exists genesis, (rest ++ [block])%list. rewrite Hchain. auto.
    + eapply well_linked_snoc; eauto.
Qed.

(** C9: in every ledger reached from a freshly constructed one by calls
    of [add_user], [add_transaction] and [mine], the chain is not empty;
    its first block is the genesis block (index 0, a previous hash of 64
    characters 0, one transaction from SYSTEM to GENESIS of amount 0);
    every block's index is its position in the chain; and every block
    after the first has for previous hash the hash of the block before. *)
Theorem reachable_chain_shape (self : Blockchain.t) :
  reachable self ->
  chain self <> []
  /\ (exists genesis : Block.t, chain self !! 0%nat = Some genesis /\ is_genesis genesis)
  /\ (forall (i : nat) (block : Block.t),
        chain self !! i = Some block -> Block.index block = Z.of_nat i)
  /\ (forall (i : nat) (before block : Block.t),
        chain self !! i = Some before -> chain self !! S i = Some block ->
        Block.previous_hash block = Block.hash before).
Proof.
  intros Hreach.
  destruct (reachable_chain self Hreach) as [(genesis & rest & Hchain & Hgen) [Hi Hp]].
  split; [rewrite Hchain; discriminate|].
  split; [exists genesis; rewrite Hchain; auto|].
  split; assumption.
Qed.

End ChainShape.

Lemma scenario_reachable : reachable (rt := Sample.runtime) Scenario.paying.
Proof.
  unfold Scenario.paying, Scenario.mined, Scenario.funded, Scenario.registered,
    Scenario.fresh.
  repeat first [ apply reach_add_transaction | apply reach_mine
               | apply reach_add_user | apply reach_init ].
Qed.

Lemma reachable_chain_shape_witness :
  reachable (rt := Sample.runtime) Scenario.paying
  /\ length (chain Scenario.paying) = 2%nat
  /\ (forall (i : nat) (before block : Block.t),
        chain Scenario.paying !! i = Some before ->
        chain Scenario.paying !! S i = Some block ->
        Block.previous_hash block = Block.hash before).
Proof.
  split; [exact scenario_reachable|]. split; [vm_compute; reflexivity|].
  exact (proj2 (proj2 (proj2 (reachable_chain_shape Scenario.paying scenario_reachable)))).
Defined.

(** ** Every committed block keeps a valid proof of work *)

Section ChainValidity.

Context {rt : Runtime}.

Lemma mine_appends_valid (self : Blockchain.t) (miner now_tx now_block : string)
    (fuel : nat) :
  snd (mine self miner now_tx now_block fuel) = self
  \/ exists block : Block.t,
       snd (mine self miner now_tx now_block fuel)
       = set_pending (set_chain self (chain self ++ [block])) []
       /\ hash_valid block
       /\ Str.startswith (Block.hash block) (Str.repeat "0" (difficulty self)) = true.
Proof.
  destruct (mine self miner now_tx now_block fuel) as [[block|e|] self'] eqn:Hmine.
  - right. exists block.
    destruct (mine_returned _ _ _ _ _ _ _ Hmine) as (last_block & _ & _ & Hpow & ->).
    destruct (proof_of_work_returns _ _ _ _ Hpow) as (Hacc & k & _ & -> & _).
    split; [reflexivity|]. split; [|exact Hacc].
    apply attempt_hash_valid, new_block_hash_valid.
  - left. destruct (mine_cases self miner now_tx now_block fuel)
      as [[_ Hm] | [(_ & _ & Hm) | (last_block & _ & _ & Hm)]];
      try (rewrite Hm in Hmine; injection Hmine as _ <-; reflexivity).
    cbn zeta in Hm. destruct (proof_of_work fuel _ _);
      rewrite Hm in Hmine; [discriminate Hmine | discriminate Hmine].
  - left. destruct (mine_cases self miner now_tx now_block fuel)
      as [[_ Hm] | [(_ & _ & Hm) | (last_block & _ & _ & Hm)]];
      try (rewrite Hm in Hmine; discriminate Hmine).
    cbn zeta in Hm. destruct (proof_of_work fuel _ _);
      rewrite Hm in Hmine; [discriminate Hmine | injection Hmine as <-; reflexivity].
Qed.

(** In every ledger a session reaches, each block of the chain stores
    the digest of its own fields, and each block after the genesis block
    has a hash that starts with [difficulty] characters 0. *)
Theorem reachable_chain_valid (self : Blockchain.t) :
  reachable self ->
  Forall hash_valid (chain self)
  /\ Forall (fun block =>
               Str.startswith (Block.hash block) (Str.repeat "0" (difficulty self)) = true)
       (tail (chain self)).
Proof.
  induction 1 as [d r now_tx now_block | self name _ IH
                 | self sender recipient amount note now _ IH
                 | self miner now_tx now_block fuel Hreach IH].
  - split; [|apply Forall_nil_2].
    apply Forall_cons_2; [apply new_block_hash_valid | apply Forall_nil_2].
  - rewrite add_user_ledger. destruct (fst (add_user self name)); exact IH.
  - destruct (add_transaction self sender recipient amount note now)
      as [[msg|] self'] eqn:Hadd; cbn.
    + apply add_transaction_rejected in Hadd as ->. exact IH.
    + apply add_transaction_accepted in Hadd as (x & _ & _ & _ & _ & _ & ->). exact IH.
  - destruct (mine_appends_valid self miner now_tx now_block fuel)
      as [-> | (block & -> & Hvalid & Hprefix)]; [exact IH|].
    destruct IH as [Hv Hp]. cbn. split.
    + apply Forall_app. split; [exact Hv|].
      apply Forall_cons_2; [exact Hvalid | apply Forall_nil_2].
    + destruct (reachable_chain self Hreach)
        as [(genesis & rest & Hchain & _) _].
      rewrite Hchain in *. cbn in *. apply Forall_app. split; [exact Hp|].
      apply Forall_cons_2; [exact Hprefix | apply Forall_nil_2].
Qed.

End ChainValidity.

Lemma reachable_chain_valid_witness :
  reachable (rt := Sample.runtime) Scenario.paying
  /\ Forall (hash_valid (rt := Sample.runtime)) (chain Scenario.paying).
Proof.
  split; [exact scenario_reachable|].
  exact (proj1 (reachable_chain_valid Scenario.paying scenario_reachable)).
Defined.

(** ** Balances *)

Lemma fold_left_flat_map {A B C : Type} (f : A -> B -> A) (g : C -> list B)
    (l : list C) (a : A) :
  fold_left f (flat_map g l) a = fold_left (fun acc x => fold_left f (g x) acc) l a.
Proof.
  revert a. induction l as [|x l IH]; intros a; cbn; [reflexivity|].
  rewrite fold_left_app. apply IH.
Qed.

Lemma fold_left_concat_map {A B C : Type} (f : A -> B -> A) (g : C -> list B)
    (l : list C) (a : A) :
  fold_left f (concat (map g l)) a = fold_left (fun acc x => fold_left f (g x) acc) l a.
Proof.
  revert a. induction l as [|x l IH]; intros a; cbn; [reflexivity|].
  rewrite fold_left_app. apply IH.
Qed.

Lemma fold_left_ext_eq {A B : Type} (f g : A -> B -> A) (l : list B) (a : A) :
  (forall acc x, f acc x = g acc x) -> fold_left f l a = fold_left g l a.
Proof.
  intros Hfg. revert a. induction l as [|x l IH]; intros a; cbn; [reflexivity|].
  rewrite Hfg. apply IH.
Qed.

(** [get_balance] is the fold of the specification. *)
Lemma get_balance_replayed (self : Blockchain.t) (name : string) :
  get_balance self name = replayed_balance self name.
Proof.
  unfold get_balance, replayed_balance, committed. f_equal.
  rewrite fold_left_app, !fold_left_flat_map, fold_left_concat_map.
  erewrite (fold_left_ext_eq _ _ (pending self)).
  - f_equal. apply fold_left_ext_eq. intros acc block.
    apply fold_left_ext_eq. intros bal tx.
    unfold committed_effects.
    destruct (Transaction.sender tx =? name)%string,
             (Transaction.recipient tx =? name)%string; reflexivity.
  - intros bal tx. unfold pending_effects.
    destruct (Transaction.sender tx =? name)%string; reflexivity.
Qed.

Lemma no_effects (name : string) (txs : list Transaction.t) :
  Forall (fun tx => ~ mentions name tx) txs ->
  flat_map (committed_effects name) txs = []
  /\ flat_map (pending_effects name) txs = [].
Proof.
  induction 1 as [|tx txs Hno _ [IHc IHp]]; [auto|].
  cbn. rewrite IHc, IHp. unfold committed_effects, pending_effects, mentions in *.
  case_str (Transaction.sender tx) name; [tauto|].
  case_str (Transaction.recipient tx) name; [tauto|]. auto.
Qed.

Lemma round8_zero : Float.round8 0%float = 0%float.
Proof. vm_compute. reflexivity. Qed.

(** A name that no transaction mentions has balance zero. *)
Lemma get_balance_unmentioned (self : Blockchain.t) (name : string) :
  Forall (fun tx => ~ mentions name tx) (committed self ++ pending self) ->
  get_balance self name = 0%float.
Proof.
  intros Hno. apply Forall_app in Hno as [Hc Hp].
  rewrite get_balance_replayed. unfold replayed_balance.
  rewrite (proj1 (no_effects name _ Hc)), (proj2 (no_effects name _ Hp)).
  exact round8_zero.
Qed.

Section Parties.

Context {rt : Runtime}.

Lemma known_parties_mono (small large : gset string) (tx : Transaction.t) :
  small ⊆ large -> known_parties small tx -> known_parties large tx.
Proof.
  intros Hsub [Hs Hr]. split.
  - destruct Hs as [Hs | Hs]; [left; exact Hs | right; apply Hsub, Hs].
  - destruct Hr as [Hr | Hr]; [left; exact Hr | right; apply Hsub, Hr].
Qed.

Lemma reachable_parties (self : Blockchain.t) :
  reachable self -> all_parties_known self.
Proof.
  induction 1 as [d r now_tx now_block | self name _ IH
                 | self sender recipient amount note now _ IH
                 | self miner now_tx now_block fuel _ IH].
  - split; [apply Forall_nil_2|].
    apply Forall_cons_2; [|apply Forall_nil_2].
    apply Forall_cons_2; [|apply Forall_nil_2]. split; left; reflexivity.
  - rewrite add_user_ledger. destruct (fst (add_user self name)); [|exact IH].
    destruct IH as [Hp Hc]. split; cbn.
    + eapply Forall_impl; [exact Hp|]. intros tx. apply known_parties_mono. set_solver.
    + eapply Forall_impl; [exact Hc|]. intros block Hb.
      eapply Forall_impl; [exact Hb|]. intros tx. apply known_parties_mono. set_solver.
  - destruct (add_transaction self sender recipient amount note now)
      as [[msg|] self'] eqn:Hadd.
    + apply add_transaction_rejected in Hadd as ->. exact IH.
    + apply add_transaction_accepted in Hadd
        as (x & _ & _ & Hs & Hr & _ & ->).
      destruct IH as [Hp Hc]. split; cbn; [|exact Hc].
      apply Forall_app. split; [exact Hp|].
      apply Forall_cons_2; [|apply Forall_nil_2]. split; cbn; tauto.
  - destruct (mine_chain self miner now_tx now_block fuel)
      as [-> | (last_block & block & _ & Hminer & -> & _ & _ & Htxs)]; [exact IH|].
    destruct IH as [Hp Hc]. split; cbn; [apply Forall_nil_2|].
    apply Forall_app. split; [exact Hc|].
    apply Forall_cons_2; [|apply Forall_nil_2]. rewrite Htxs.
    apply Forall_app. split; [exact Hp|].
    apply Forall_cons_2; [|apply Forall_nil_2]. split; cbn; auto.
Qed.

(** C3, as the code has it: for every name, registered or not, and every
    ledger, [get_balance(name)] is the fold of the specification -- from
    zero, minus the amount of each committed transaction [name] sends,
    plus the amount of each it receives, then minus the amount of each
    pending transaction it sends, rounded to 8 decimal places; it is a
    total function. A name that no committed or pending transaction
    mentions has balance zero; in a ledger reached from a fresh one by
    [add_user], [add_transaction] and [mine], that is every
    unregistered name other than SYSTEM and GENESIS. *)
Theorem get_balance_replays_ledger (self : Blockchain.t) (name : string) :
  get_balance self name = replayed_balance self name
  /\ (Forall (fun tx => ~ mentions name tx) (committed self ++ pending self) ->
      get_balance self name = 0%float)
  /\ (reachable self -> name ∉ users self -> name <> "SYSTEM" -> name <> "GENESIS" ->
      get_balance self name = 0%float).
Proof.
  split; [apply get_balance_replayed|]. split; [apply get_balance_unmentioned|].
  intros Hreach Hname Hsys Hgen. apply get_balance_unmentioned.
  destruct (reachable_parties self Hreach) as [Hp Hc].
  assert (Hknown : forall tx, known_parties (users self) tx -> ~ mentions name tx).
  { intros tx [[Hs | Hs] [Hr | Hr]] [Hm | Hm]; congruence. }
  apply Forall_app. split.
  - unfold committed. apply Forall_concat, Forall_map.
    eapply Forall_impl; [exact Hc|]. intros block Hb.
    eapply Forall_impl; [exact Hb|]. exact Hknown.
  - eapply Forall_impl; [exact Hp|]. exact Hknown.
Qed.

End Parties.

Lemma scenario_mined_reachable : reachable (rt := Sample.runtime) Scenario.mined.
Proof.
  unfold Scenario.mined, Scenario.funded, Scenario.registered, Scenario.fresh.
  repeat first [ apply reach_add_transaction | apply reach_mine
               | apply reach_add_user | apply reach_init ].
Qed.

Lemma get_balance_replays_ledger_witness :
  reachable (rt := Sample.runtime) Scenario.paying
  /\ ("carol" ∉ users Scenario.paying)
  /\ get_balance Scenario.paying "carol" = 0%float
  /\ get_balance Scenario.paying "alice" = replayed_balance Scenario.paying "alice".
Proof.
  assert (Hcarol : "carol" ∉ users Scenario.paying) by by_evaluation.
  split; [exact scenario_reachable|]. split; [exact Hcarol|]. split.
  - apply (proj2 (proj2 (get_balance_replays_ledger (rt := Sample.runtime)
                           Scenario.paying "carol")));
      [exact scenario_reachable | exact Hcarol | discriminate | discriminate].
  - exact (proj1 (get_balance_replays_ledger (rt := Sample.runtime)
                    Scenario.paying "alice")).
Defined.

(** C3 fails as stated for the name SYSTEM, which is never registered:
    after alice's faucet of 50 and her mining reward of 10 have been
    committed, [get_balance("SYSTEM")] is -60, not zero. *)
Lemma system_balance_not_zero :
  reachable (rt := Sample.runtime) Scenario.mined
  /\ ("SYSTEM" ∉ users Scenario.mined)
  /\ get_balance Scenario.mined "SYSTEM" = (-60)%float
  /\ get_balance Scenario.mined "SYSTEM" <> 0%float.
Proof.
  assert (Hbal : get_balance Scenario.mined "SYSTEM" = (-60)%float)
    by (vm_compute; reflexivity).
  split; [exact scenario_mined_reachable|]. split; [by_evaluation|].
  split; [exact Hbal|]. rewrite Hbal. intros Heq.
  apply (f_equal Prim2SF) in Heq. vm_compute in Heq. discriminate Heq.
Qed.

(** ** Export and import *)

Lemma comprehension_map {A B C : Type} (f : A -> exn + B) (g : C -> A) (h : C -> B)
    (l : list C) :
  (forall x, f (g x) = inr (h x)) -> comprehension f (map g l) = inr (map h l).
Proof.
  intros Hfg. induction l as [|x l IH]; cbn; [reflexivity|].
  rewrite Hfg, IH. reflexivity.
Qed.

Lemma transaction_roundtrip (tx : Transaction.t) :
  Transaction.from_dict (Transaction.to_dict tx) = inr tx.
Proof. destruct tx. reflexivity. Qed.

Lemma block_roundtrip (block : Block.t) :
  Block.from_dict (Block.to_dict block) = inr block.
Proof.
  destruct block as [i ts txs ph n h]. unfold Block.from_dict, Block.to_dict. cbn.
  rewrite (comprehension_map _ _ (fun tx => tx)) by exact transaction_roundtrip.
  rewrite map_id. reflexivity.
Qed.

Lemma users_roundtrip (names : gset string) :
  list_to_set (sorted (elements names)) = names.
Proof.
  unfold sorted. apply set_eq. intros name.
  rewrite elem_of_list_to_set, merge_sort_Permutation. apply elem_of_elements.
Qed.

(** C7: importing the snapshot a ledger exports builds that same
    ledger: the same blocks with the same fields and hashes in the same
    order, the same set of users, the same pending transactions in the
    same order, the same difficulty and the same reward. *)
Theorem export_import_roundtrip {rt : Runtime} (self : Blockchain.t)
    (now_tx now_block : string) :
  from_dict (to_dict self) now_tx now_block = inr self.
Proof.
  destruct self as [c p u d r]. unfold from_dict, to_dict. cbn.
  rewrite (comprehension_map _ _ (fun tx => tx)) by exact transaction_roundtrip.
  rewrite (comprehension_map _ _ (fun b => b)) by exact block_roundtrip.
  rewrite !map_id. unfold set_chain, set_pending, set_users. cbn.
  rewrite users_roundtrip, Nat2Z.id. reflexivity.
Qed.

Lemma transaction_record_ok_spec (d : Transaction.dict) :
  if transaction_record_ok d
  then exists tx, Transaction.from_dict d = inr tx
  else Transaction.from_dict d = inl TypeError.
Proof.
  destruct d as [[s|] [r|] [a|] n ts [|k ks]]; cbn; eauto.
Qed.

Lemma comprehension_ok {A B : Type} (f : A -> exn + B) (ok : A -> bool) (l : list A) :
  (forall x, if ok x then exists y, f x = inr y else exists e, f x = inl e) ->
  if forallb ok l
  then exists ys, comprehension f l = inr ys /\ length ys = length l
  else exists e, comprehension f l = inl e.
Proof.
  intros Hok. induction l as [|x l IH]; cbn; [eauto|].
  specialize (Hok x). destruct (ok x); cbn.
  - destruct Hok as [y ->]. destruct (forallb ok l).
    + destruct IH as (ys & -> & Hlen). exists (y :: ys). cbn. auto.
    + destruct IH as [e ->]. eauto.
  - destruct Hok as [e ->]. eauto.
Qed.

Lemma transaction_records_ok_spec (ds : list Transaction.dict) :
  if forallb transaction_record_ok ds
  then exists txs, comprehension Transaction.from_dict ds = inr txs
                   /\ length txs = length ds
  else exists e, comprehension Transaction.from_dict ds = inl e.
Proof.
  apply comprehension_ok. intros d.
  pose proof (transaction_record_ok_spec d) as Hd.
  destruct (transaction_record_ok d); eauto.
Qed.

Lemma block_record_ok_spec (d : Block.dict) :
  if block_record_ok d
  then exists block, Block.from_dict d = inr block
  else exists e, Block.from_dict d = inl e.
Proof.
  destruct d as [[i|] [ts|] [tds|] [ph|] [n|] [h|]];
    unfold block_record_ok, Block.from_dict; cbn;
    try (pose proof (transaction_records_ok_spec tds) as Htds;
         destruct (forallb transaction_record_ok tds);
         [ destruct Htds as (txs & -> & _) | destruct Htds as (e & ->) ]);
    cbn; eauto.
Qed.

(** C8, as the code has it, for a snapshot in which every key that is
    present holds a value of its declared type ([difficulty] an int,
    [reward] a float, [users] a list of str, [pending] a list of
    transaction records, [chain] a list of block records, and the fields
    of the records likewise: the snapshots [Blockchain.dict] describes).
    On such a snapshot [from_dict] raises exactly when a record under
    [pending] or [chain] is malformed -- a transaction record without
    [sender], [recipient] or [amount] or with a key that is no field, a
    block record without one of its six keys -- and then the shell's
    [load] leaves its ledger and its user as they were. A snapshot whose
    records are well formed is imported even when it lacks [difficulty],
    [reward], [users], [pending] or [chain]: the missing key is read as
    2, 10.0 or the empty list, and the imported ledger replaces the
    shell's. A value of another type under a key ([int] and [float] of a
    str, [set] of a value that is no list) is outside this statement. *)
Theorem import_fails_on_malformed_records {rt : Runtime} (shell : BlockchainShell.t)
    (d : Blockchain.dict) (now_tx now_block : string) :
  if records_ok d
  then exists loaded : Blockchain.t,
         from_dict d now_tx now_block = inr loaded
         /\ difficulty loaded = Z.to_nat (get (d_difficulty d) 2)
         /\ reward loaded = get (d_reward d) 10%float
         /\ users loaded = list_to_set (get (d_users d) [])
         /\ length (pending loaded) = length (get (d_pending d) [])
         /\ length (chain loaded) = length (get (d_chain d) [])
         /\ BlockchainShell.do_load shell d now_tx now_block
            = (Returned tt,
               {| BlockchainShell.bc := loaded; BlockchainShell.current_user := None |})
  else exists e : exn,
         from_dict d now_tx now_block = inl e
         /\ BlockchainShell.do_load shell d now_tx now_block = (Raised e, shell).
Proof.
  unfold records_ok, BlockchainShell.do_load, from_dict.
  pose proof (transaction_records_ok_spec (get (d_pending d) [])) as Hp.
  pose proof (comprehension_ok Block.from_dict block_record_ok (get (d_chain d) [])
                block_record_ok_spec) as Hc.
  destruct (forallb transaction_record_ok (get (d_pending d) [])); cbn.
  - destruct Hp as (p & -> & Hlenp).
    destruct (forallb block_record_ok (get (d_chain d) [])).
    + destruct Hc as (c & -> & Hlenc). eexists. repeat split; assumption.
    + destruct Hc as (e & ->). eauto.
  - destruct Hp as (e & ->). eauto.
Qed.

(** C8 fails as stated: the empty snapshot, which has none of [users],
    [pending] and [chain], is imported. [from_dict] returns a ledger with
    no user, no pending transaction and an empty chain (not even a
    genesis block), and the shell's [load] replaces its ledger by it. *)
Lemma import_accepts_missing_fields :
  from_dict (rt := Sample.runtime) Scenario.empty_snapshot
    "2025-01-01T10:00:00Z" "2025-01-01T10:00:00Z"
  = inr {| chain := []; pending := []; users := ∅; difficulty := 2; reward := 10%float |}
  /\ BlockchainShell.do_load (rt := Sample.runtime)
       {| BlockchainShell.bc := Scenario.paying;
          BlockchainShell.current_user := Some "alice" |}
       Scenario.empty_snapshot "2025-01-01T10:00:00Z" "2025-01-01T10:00:00Z"
     = (Returned tt,
        {| BlockchainShell.bc :=
             {| chain := []; pending := []; users := ∅; difficulty := 2;
                reward := 10%float |};
           BlockchainShell.current_user := None |}).
Proof. split; reflexivity. Qed.

Example import_of_block_without_hash :
  let block_record :=
    {| Block.d_index := Some 0; Block.d_timestamp := Some "2025-01-01T09:00:00Z";
       Block.d_transactions := Some []; Block.d_previous_hash := Some "00";
       Block.d_nonce := Some 0; Block.d_hash := None |} in
  let snapshot :=
    {| d_difficulty := Some 2; d_reward := Some 10%float; d_users := Some ["alice"];
       d_pending := Some []; d_chain := Some [block_record] |} in
  let shell :=
    {| BlockchainShell.bc := Scenario.paying;
       BlockchainShell.current_user := Some "alice" |} in
  BlockchainShell.do_load (rt := Sample.runtime) shell snapshot
    "2025-01-01T10:00:00Z" "2025-01-01T10:00:00Z"
  = (Raised (KeyError "hash"), shell).
Proof. reflexivity. Qed.

(** ** Transaction admission: what it accepts *)

(** The amounts the positivity check lets through are those for which
    [amount <= 0] is false; a NaN is one of them. *)
Lemma nan_passes_the_checks :
  (nan <=? 0)%float = false /\ (0 <? nan)%float = false
  /\ (forall balance : float, (balance <? nan)%float = false).
Proof.
  split; [reflexivity|]. split; [reflexivity|].
  intros balance. rewrite ltb_spec. unfold SFltb, SFcompare.
  change (Prim2SF nan) with S754_nan.
  destruct (Prim2SF balance); reflexivity.
Qed.

(** An amount and parties that pass the four checks are admitted. *)
Lemma add_transaction_passes {rt : Runtime} (self : Blockchain.t)
    (sender recipient : string) (amount : number_arg) (note now : string) (x : float) :
  to_float amount = Some x ->
  (x <=? 0)%float = false ->
  sender = "SYSTEM" \/ sender ∈ users self ->
  recipient ∈ users self \/ recipient = "GENESIS" ->
  sender = "SYSTEM" \/ (get_balance self sender <? x)%float = false ->
  add_transaction self sender recipient amount note now
  = (None, set_pending self
             (pending self ++ [Transaction.mk sender recipient x note now])).
Proof.
  intros Hx Hpos Hs Hr Hbal. unfold add_transaction. rewrite Hx, Hpos.
  assert (Hsender : negb (sender =? "SYSTEM")%string
                    && negb (bool_decide (sender ∈ users self)) = false).
  { destruct Hs as [-> | Hs]; [reflexivity|].
    rewrite (bool_decide_eq_true_2 _ Hs). apply andb_false_r. }
  assert (Hrecipient : negb (bool_decide (recipient ∈ users self))
                       && negb (recipient =? "GENESIS")%string = false).
  { destruct Hr as [Hr | ->]; [|apply andb_false_r].
    rewrite (bool_decide_eq_true_2 _ Hr). reflexivity. }
  assert (Hfunds : negb (sender =? "SYSTEM")%string
                   && (get_balance self sender <? x)%float = false).
  { destruct Hbal as [-> | ->]; [reflexivity | apply andb_false_r]. }
  rewrite Hsender, Hrecipient, Hfunds. reflexivity.
Qed.

(** [add_transaction] answers [None] exactly when the amount converts
    to a float [x] with [x <= 0] false, the sender is SYSTEM or a user,
    the recipient is a user or GENESIS, and the sender is SYSTEM or
    [get_balance(sender) < x] is false. *)
Theorem add_transaction_accepts_iff {rt : Runtime} (self : Blockchain.t)
    (sender recipient : string) (amount : number_arg) (note now : string) :
  fst (add_transaction self sender recipient amount note now) = None
  <-> exists x : float,
        to_float amount = Some x
        /\ (x <=? 0)%float = false
        /\ (sender = "SYSTEM" \/ sender ∈ users self)
        /\ (recipient ∈ users self \/ recipient = "GENESIS")
        /\ (sender = "SYSTEM" \/ (get_balance self sender <? x)%float = false).
Proof.
  split.
  - intros Hnone.
    destruct (add_transaction self sender recipient amount note now)
      as [result self'] eqn:Hadd.
    cbn in Hnone. subst result.
    apply add_transaction_accepted in Hadd as (x & ? & ? & ? & ? & ? & _).
    exists x. auto.
  - intros (x & Hx & Hpos & Hs & Hr & Hbal).
    rewrite (add_transaction_passes self sender recipient amount note now x); auto.
Qed.

(** C4 does not hold of the code for an amount that is NaN. NaN is not
    strictly positive, yet [nan <= 0] is false, so the positivity check
    lets it through; and [balance < nan] is false, so the check of the
    funds does too. A faucet of NaN to alice is accepted, and so is a
    payment of NaN from alice, whose balance is zero, to bob. *)
Theorem add_transaction_accepts_nan :
  (0 <? nan)%float = false
  /\ add_transaction (rt := Sample.runtime) Scenario.registered "SYSTEM" "alice"
       (OfFloat nan) "Faucet" "2025-01-01T09:01:00Z"
     = (None,
        set_pending Scenario.registered
          [Transaction.mk "SYSTEM" "alice" nan "Faucet" "2025-01-01T09:01:00Z"])
  /\ get_balance Scenario.registered "alice" = 0%float
  /\ add_transaction (rt := Sample.runtime) Scenario.registered "alice" "bob"
       (OfFloat nan) "" "2025-01-01T09:01:00Z"
     = (None,
        set_pending Scenario.registered
          [Transaction.mk "alice" "bob" nan "" "2025-01-01T09:01:00Z"]).
Proof.
  split; [reflexivity|]. split; [vm_compute; reflexivity|].
  split; vm_compute; reflexivity.
Qed.

(** *** Away from NaN the checks are the ones the messages name *)

Lemma SFcompare_antisym (x y : spec_float) :
  SFcompare y x = option_map CompOpp (SFcompare x y).
Proof.
  destruct x as [sx | sx | | sx mx ex], y as [sy | sy | | sy my ey]; cbn;
    try reflexivity; try (destruct sx; reflexivity); try (destruct sy; reflexivity);
    try (destruct sx, sy; reflexivity).
  destruct sx, sy; cbn; try reflexivity;
    rewrite (Z.compare_antisym ex ey); destruct (ex ?= ey); cbn; try reflexivity;
    rewrite (Pos.compare_cont_antisym mx my Eq); reflexivity.
Qed.

Lemma Prim2SF_not_nan (x : float) : is_nan x = false -> Prim2SF x <> S754_nan.
Proof.
  intros Hx. unfold Prim2SF. rewrite Hx.
  destruct (is_zero x); [discriminate|]. destruct (is_infinity x); [discriminate|].
  destruct (Z.frexp x) as [r e]. destruct (shr_fexp _ _ _ _ _) as [shr e'].
  destruct (shr_m shr); discriminate.
Qed.

Lemma SFcompare_defined (x y : spec_float) :
  x <> S754_nan -> y <> S754_nan -> exists c, SFcompare x y = Some c.
Proof.
  intros Hx Hy. destruct x, y; cbn; try contradiction; eauto.
Qed.

(** For floats that are not NaN, [a < b] is false exactly when
    [b <= a]. *)
Lemma ltb_false_iff_leb (a b : float) :
  is_nan a = false -> is_nan b = false ->
  (a <? b)%float = false <-> (b <=? a)%float = true.
Proof.
  intros Ha Hb. rewrite ltb_spec, leb_spec. unfold SFltb, SFleb.
  rewrite (SFcompare_antisym (Prim2SF a) (Prim2SF b)).
  destruct (SFcompare_defined _ _ (Prim2SF_not_nan a Ha) (Prim2SF_not_nan b Hb))
    as [c ->].
  destruct c; cbn; split; congruence.
Qed.

(** For a float that is not NaN, [x <= 0] is false exactly when
    [0 < x]. *)
Lemma leb_zero_false_iff_positive (x : float) :
  is_nan x = false -> (x <=? 0)%float = false <-> (0 <? x)%float = true.
Proof.
  intros Hx. rewrite ltb_spec, leb_spec. unfold SFltb, SFleb.
  rewrite (SFcompare_antisym (Prim2SF 0%float) (Prim2SF x)).
  destruct (SFcompare_defined (Prim2SF 0%float) (Prim2SF x)) as [c ->].
  - discriminate.
  - exact (Prim2SF_not_nan x Hx).
  - destruct c; cbn; split; congruence.
Qed.

(** When neither the amount nor the sender's balance is NaN,
    [add_transaction] succeeds exactly when the amount is strictly
    positive, the sender is SYSTEM or a user, the recipient is a user or
    GENESIS, and the sender is SYSTEM or has a balance of at least the
    amount. *)
Theorem add_transaction_accepts_without_nan {rt : Runtime} (self : Blockchain.t)
    (sender recipient : string) (amount : number_arg) (note now : string) (x : float) :
  to_float amount = Some x ->
  is_nan x = false ->
  is_nan (get_balance self sender) = false ->
  fst (add_transaction self sender recipient amount note now) = None
  <-> (0 <? x)%float = true
      /\ (sender = "SYSTEM" \/ sender ∈ users self)
      /\ (recipient ∈ users self \/ recipient = "GENESIS")
      /\ (sender = "SYSTEM" \/ (x <=? get_balance self sender)%float = true).
Proof.
  intros Hx Hnan Hbal. split.
  - intros Hnone.
    destruct (add_transaction self sender recipient amount note now)
      as [result self'] eqn:Hadd.
    cbn in Hnone. subst result.
    apply add_transaction_accepted in Hadd as (x' & Hx' & Hpos & Hs & Hr & Hfunds & _).
    assert (x' = x) as -> by congruence.
    apply leb_zero_false_iff_positive in Hpos; [|exact Hnan].
    repeat split; try assumption.
    destruct Hfunds as [-> | Hfunds]; [left; reflexivity|].
    right. apply ltb_false_iff_leb; assumption.
  - intros (Hpos & Hs & Hr & Hfunds).
    apply leb_zero_false_iff_positive in Hpos; [|exact Hnan].
    rewrite (add_transaction_passes self sender recipient amount note now x);
      [reflexivity | assumption..|].
    destruct Hfunds as [-> | Hfunds]; [left; reflexivity|].
    right. apply ltb_false_iff_leb; assumption.
Qed.

Lemma add_transaction_accepts_without_nan_witness :
  is_nan 20%float = false
  /\ is_nan (get_balance Scenario.mined "alice") = false
  /\ (20 <=? get_balance Scenario.mined "alice")%float = true
  /\ fst (add_transaction (rt := Sample.runtime) Scenario.mined "alice" "bob"
            (OfFloat 20%float) "lunch" "2025-01-01T09:03:00Z") = None.
Proof.
  assert (Hnan : is_nan 20%float = false) by reflexivity.
  assert (Hbal : is_nan (get_balance Scenario.mined "alice") = false)
    by (vm_compute; reflexivity).
  assert (Hfunds : (20 <=? get_balance Scenario.mined "alice")%float = true)
    by (vm_compute; reflexivity).
  split; [exact Hnan|]. split; [exact Hbal|]. split; [exact Hfunds|].
  apply (add_transaction_accepts_without_nan (rt := Sample.runtime) Scenario.mined
           "alice" "bob" (OfFloat 20%float) "lunch" "2025-01-01T09:03:00Z" 20%float
           eq_refl Hnan Hbal).
  split; [reflexivity|]. split; [right; by_evaluation|].
  split; [left; by_evaluation|]. right. exact Hfunds.
Defined.

(** * Further properties of the ledger *)

(** ** Registered names *)

Lemma lstrip_head (s : string) :
  Str.lstrip s = ""
  \/ exists c rest, Str.lstrip s = String c rest /\ Str.isspace c = false.
Proof.
  induction s as [|c s IH]; cbn; [now left|].
  destruct (Str.isspace c) eqn:Hc; [exact IH|]. right. eauto.
Qed.

Lemma rstrip_head (c : ascii) (s : string) :
  Str.isspace c = false -> exists rest, Str.rstrip (String c s) = String c rest.
Proof.
  intros Hc. cbn. destruct (Str.rstrip s); [rewrite Hc|]; eauto.
Qed.

Lemma rstrip_idempotent (s : string) : Str.rstrip (Str.rstrip s) = Str.rstrip s.
Proof.
  induction s as [|c s IH]; cbn; [reflexivity|].
  destruct (Str.rstrip s) as [|d r] eqn:Hr.
  - destruct (Str.isspace c) eqn:Hc; cbn; [reflexivity|]. rewrite Hc. reflexivity.
  - cbn [Str.rstrip] in *. rewrite IH. reflexivity.
Qed.

Lemma strip_idempotent (s : string) : Str.strip (Str.strip s) = Str.strip s.
Proof.
  unfold Str.strip. destruct (lstrip_head s) as [-> | (c & rest & -> & Hc)];
    [reflexivity|].
  destruct (rstrip_head c rest Hc) as [r Hr]. rewrite Hr at 1.
  cbn [Str.lstrip]. rewrite Hc, <- Hr. apply rstrip_idempotent.
Qed.

Lemma add_user_users (self : Blockchain.t) (name : string) :
  users (snd (add_user self name)) = users self
  \/ (fst (add_user self name) = true
      /\ admissible_name (Str.strip name)
      /\ (Str.strip name ∉ users self)
      /\ users (snd (add_user self name)) = {[ Str.strip name ]} ∪ users self).
Proof.
  rewrite add_user_ledger. destruct (fst (add_user self name)) eqn:Hok; [|now left].
  right. apply add_user_true_iff in Hok as (Hne & Hup & Hnew).
  repeat split; auto using strip_idempotent.
Qed.

(** A name is registered once: after [add_user(name)] has succeeded,
    [add_user] of any name with the same trimmed form returns [False] and
    leaves the ledger as it is. *)
Theorem add_user_twice (self : Blockchain.t) (name again : string) :
  fst (add_user self name) = true ->
  Str.strip again = Str.strip name ->
  add_user (snd (add_user self name)) again = (false, snd (add_user self name)).
Proof.
  intros Hok Hsame.
  assert (Hin : Str.strip again ∈ users (snd (add_user self name))).
  { rewrite add_user_ledger, Hok, Hsame. cbn. set_solver. }
  assert (Hfalse : fst (add_user (snd (add_user self name)) again) = false).
  { apply not_true_iff_false. rewrite add_user_true_iff. tauto. }
  pose proof (add_user_ledger (snd (add_user self name)) again) as Hled.
  rewrite Hfalse in Hled.
  destruct (add_user (snd (add_user self name)) again) as [ok after].
  cbn in *. congruence.
Qed.

Lemma add_user_twice_witness :
  fst (add_user Scenario.fresh "alice") = true
  /\ Str.strip "  alice " = Str.strip "alice"
  /\ fst (add_user (snd (add_user Scenario.fresh "alice")) "  alice ") = false.
Proof.
  assert (Hok : fst (add_user Scenario.fresh "alice") = true) by (vm_compute; reflexivity).
  assert (Hsame : Str.strip "  alice " = Str.strip "alice") by reflexivity.
  split; [exact Hok|]. split; [exact Hsame|].
  rewrite (add_user_twice Scenario.fresh "alice" "  alice " Hok Hsame). reflexivity.
Defined.

(** In every ledger reached from a fresh one, each registered name is
    non-empty, has no white space around it, and is not SYSTEM in any
    letter case; so SYSTEM itself is never a user. *)
Theorem reachable_user_names {rt : Runtime} (self : Blockchain.t) :
  reachable self ->
  (forall name : string, name ∈ users self -> admissible_name name)
  /\ "SYSTEM" ∉ users self.
Proof.
  intros Hreach.
  assert (Hnames : forall name, name ∈ users self -> admissible_name name).
  { induction Hreach as [d r now_tx now_block | self name _ IH
                        | self sender recipient amount note now _ IH
                        | self miner now_tx now_block fuel _ IH].
    - cbn. intros name Hin. apply elem_of_empty in Hin. contradiction.
    - intros u Hu. destruct (add_user_users self name) as [Heq | (_ & Hadm & _ & Heq)];
        rewrite Heq in Hu; [auto|].
      apply elem_of_union in Hu as [Hu | Hu]; [|auto].
      apply elem_of_singleton in Hu. subst u. exact Hadm.
    - destruct (add_transaction_chain self sender recipient amount note now) as [_ ->].
      exact IH.
    - destruct (mine_chain self miner now_tx now_block fuel)
        as [-> | (last_block & block & _ & _ & -> & _)]; exact IH. }
  split; [exact Hnames|]. intros Hsys.
  destruct (Hnames _ Hsys) as (_ & _ & Hup). apply Hup. reflexivity.
Qed.

Lemma reachable_user_names_witness :
  reachable (rt := Sample.runtime) Scenario.paying
  /\ ("SYSTEM" ∉ users Scenario.paying).
Proof.
  split; [exact scenario_reachable|].
  exact (proj2 (reachable_user_names Scenario.paying scenario_reachable)).
Defined.

(** ** What a session never undoes *)

Lemma add_transaction_policy {rt : Runtime} (self : Blockchain.t)
    (sender recipient : string) (amount : number_arg) (note now : string) :
  difficulty (snd (add_transaction self sender recipient amount note now))
  = difficulty self
  /\ reward (snd (add_transaction self sender recipient amount note now)) = reward self.
Proof.
  destruct (add_transaction self sender recipient amount note now)
    as [[msg|] self'] eqn:Hadd; cbn.
  - apply add_transaction_rejected in Hadd as ->. auto.
  - apply add_transaction_accepted in Hadd as (x & _ & _ & _ & _ & _ & ->). auto.
Qed.

(** Whatever the ledger a session starts from, calls of [add_user],
    [add_transaction] and [mine] only append blocks to [chain] (the blocks
    already there stay, unchanged and in place), only add names to
    [users], and change neither [difficulty] nor [reward]. *)
Theorem evolves_append_only {rt : Runtime} (self self' : Blockchain.t) :
  evolves self self' ->
  (exists blocks : list Block.t, chain self' = (chain self ++ blocks)%list)
  /\ users self ⊆ users self'
  /\ difficulty self' = difficulty self
  /\ reward self' = reward self.
Proof.
  induction 1 as [ | mid name _ IH | mid sender recipient amount note now _ IH
                 | mid miner now_tx now_block fuel _ IH].
  - split; [exists []; symmetry; apply app_nil_r|]. auto.
  - destruct IH as ((blocks & Hc) & Hu & Hd & Hr).
    destruct (add_user_chain mid name) as [-> _].
    split; [eauto|]. rewrite add_user_ledger.
    destruct (fst (add_user mid name)); cbn; repeat split; auto. set_solver.
  - destruct IH as ((blocks & Hc) & Hu & Hd & Hr).
    destruct (add_transaction_chain mid sender recipient amount note now) as [-> ->].
    destruct (add_transaction_policy mid sender recipient amount note now) as [-> ->].
    eauto.
  - destruct IH as ((blocks & Hc) & Hu & Hd & Hr).
    destruct (mine_chain mid miner now_tx now_block fuel)
      as [-> | (last_block & block & _ & _ & -> & _)]; [eauto|].
    cbn. split; [|auto]. exists (blocks ++ [block])%list.
    rewrite Hc, app_assoc. reflexivity.
Qed.

Lemma scenario_evolves : evolves (rt := Sample.runtime) Scenario.fresh Scenario.paying.
Proof.
  unfold Scenario.paying, Scenario.mined, Scenario.funded, Scenario.registered.
  repeat first [ apply evolves_add_transaction | apply evolves_mine
               | apply evolves_add_user ].
  apply evolves_refl.
Qed.

Lemma evolves_append_only_witness :
  evolves (rt := Sample.runtime) Scenario.fresh Scenario.paying
  /\ (exists blocks : list Block.t,
        chain Scenario.paying = (chain Scenario.fresh ++ blocks)%list)
  /\ difficulty Scenario.paying = difficulty Scenario.fresh.
Proof.
  destruct (evolves_append_only Scenario.fresh Scenario.paying scenario_evolves)
    as (Hchain & _ & Hdiff & _).
  split; [exact scenario_evolves|]. split; [exact Hchain | exact Hdiff].
Defined.

(** ** How admission and mining move balances *)

Lemma get_balance_unrounded (self : Blockchain.t) (name : string) :
  get_balance self name = Float.round8 (unrounded_balance self name).
Proof. apply get_balance_replayed. Qed.

Lemma unrounded_split (self : Blockchain.t) (name : string) :
  unrounded_balance self name
  = fold_left apply_effect (flat_map (pending_effects name) (pending self))
      (committed_balance self name).
Proof. unfold unrounded_balance, committed_balance. apply fold_left_app. Qed.

(** An admitted transaction lowers the sender's balance at once -- the
    debit of the amount is applied to the unrounded balance, then rounded
    -- and changes the balance of nobody else: the recipient's credit
    waits for the block. *)
Theorem add_transaction_balances {rt : Runtime} (self self' : Blockchain.t)
    (sender recipient : string) (amount : number_arg) (note now : string) :
  add_transaction self sender recipient amount note now = (None, self') ->
  exists x : float,
    to_float amount = Some x
    /\ get_balance self' sender
       = Float.round8 (unrounded_balance self sender - x)%float
    /\ forall name : string,
         name <> sender -> get_balance self' name = get_balance self name.
Proof.
  intros Hadd.
  apply add_transaction_accepted in Hadd as (x & Hx & _ & _ & _ & _ & ->).
  exists x. split; [exact Hx|].
  assert (Hun : forall name,
            unrounded_balance
              (set_pending self
                 (pending self ++ [Transaction.mk sender recipient x note now])) name
            = fold_left apply_effect
                (pending_effects name (Transaction.mk sender recipient x note now))
                (unrounded_balance self name)).
  { intros name. rewrite !unrounded_split. cbn [pending set_pending].
    rewrite flat_map_app, fold_left_app. cbn [flat_map]. rewrite app_nil_r.
    reflexivity. }
  split.
  - rewrite get_balance_unrounded, Hun. unfold pending_effects. cbn.
    rewrite String.eqb_refl. reflexivity.
  - intros name Hname. rewrite !get_balance_unrounded, Hun.
    unfold pending_effects. cbn.
    rewrite (proj2 (eqb_string_false sender name)) by congruence. reflexivity.
Qed.

Lemma add_transaction_balances_witness :
  exists x : float,
    add_transaction (rt := Sample.runtime) Scenario.mined "alice" "bob"
      (OfFloat 20%float) "lunch" "2025-01-01T09:03:00Z" = (None, Scenario.paying)
    /\ get_balance Scenario.paying "alice"
       = Float.round8 (unrounded_balance Scenario.mined "alice" - x)%float
    /\ get_balance Scenario.paying "bob" = get_balance Scenario.mined "bob".
Proof.
  assert (Hadd : add_transaction (rt := Sample.runtime) Scenario.mined "alice" "bob"
                   (OfFloat 20%float) "lunch" "2025-01-01T09:03:00Z"
                 = (None, Scenario.paying)) by (vm_compute; reflexivity).
  destruct (add_transaction_balances _ _ _ _ _ _ _ Hadd) as (x & _ & Halice & Hothers).
  exists x. split; [exact Hadd|]. split; [exact Halice|].
  apply Hothers. discriminate.
Defined.

Lemma mine_committed {rt : Runtime} (self self' : Blockchain.t)
    (miner now_tx now_block : string) (fuel : nat) (block : Block.t) :
  mine self miner now_tx now_block fuel = (Returned block, self') ->
  committed self' = (committed self ++ pending self ++ [reward_tx self miner now_tx])%list
  /\ pending self' = [].
Proof.
  intros Hmine.
  destruct (mine_returned _ _ _ _ _ _ _ Hmine) as (last_block & _ & _ & Hpow & ->).
  destruct (proof_of_work_returns _ _ _ _ Hpow) as (_ & k & _ & -> & _).
  destruct (attempt_fields
              (_new_block self (Block.hash last_block)
                 (pending self ++ [reward_tx self miner now_tx]) now_block) k)
    as (_ & _ & Htxs & _).
  split; [|reflexivity]. unfold committed. cbn [chain set_pending set_chain].
  rewrite map_app, concat_app. cbn [map concat]. rewrite Htxs, app_nil_r. reflexivity.
Qed.

Lemma no_credit_effects (name : string) (txs : list Transaction.t) :
  Forall (fun tx => Transaction.recipient tx <> name) txs ->
  flat_map (committed_effects name) txs = flat_map (pending_effects name) txs.
Proof.
  induction 1 as [|tx txs Hr _ IH]; [reflexivity|]. cbn. rewrite IH. f_equal.
  unfold committed_effects, pending_effects.
  rewrite (proj2 (eqb_string_false _ _) Hr). apply app_nil_r.
Qed.

Lemma reward_effects (self : Blockchain.t) (miner now_tx name : string) :
  committed_effects name (reward_tx self miner now_tx)
  = ((if ("SYSTEM" =? name)%string then [Debit (reward self)] else [])
     ++ (if (miner =? name)%string then [Credit (reward self)] else []))%list.
Proof. reflexivity. Qed.

(** When [mine] returns, the balance of every name is the chain's part
    of its old balance followed by the full effects -- credits now
    included -- of the transactions that were pending and of the reward.
    So mining leaves the balance of a name unchanged when the name is not
    the miner, is not SYSTEM and receives none of the pending
    transactions; and with nothing pending the miner's unrounded balance
    grows by [reward]. *)
Theorem mine_balances {rt : Runtime} (self self' : Blockchain.t)
    (miner now_tx now_block : string) (fuel : nat) (block : Block.t) :
  mine self miner now_tx now_block fuel = (Returned block, self') ->
  (forall name : string,
     get_balance self' name
     = Float.round8
         (fold_left apply_effect
            (flat_map (committed_effects name)
               (pending self ++ [reward_tx self miner now_tx]))
            (committed_balance self name)))
  /\ (forall name : string,
        name <> miner -> name <> "SYSTEM" ->
        Forall (fun tx => Transaction.recipient tx <> name) (pending self) ->
        get_balance self' name = get_balance self name)
  /\ (pending self = [] -> miner <> "SYSTEM" ->
      get_balance self' miner
      = Float.round8 (unrounded_balance self miner + reward self)%float).
Proof.
  intros Hmine. destruct (mine_committed _ _ _ _ _ _ _ Hmine) as [Hc Hp].
  assert (Hlaw : forall name,
            get_balance self' name
            = Float.round8
                (fold_left apply_effect
                   (flat_map (committed_effects name)
                      (pending self ++ [reward_tx self miner now_tx]))
                   (committed_balance self name))).
  { intros name. rewrite get_balance_unrounded, unrounded_split, Hp.
    unfold committed_balance. rewrite Hc, flat_map_app, fold_left_app. reflexivity. }
  split; [exact Hlaw|]. split.
  - intros name Hminer Hsys Hrcp. rewrite Hlaw, get_balance_unrounded, unrounded_split.
    rewrite flat_map_app, fold_left_app, (no_credit_effects name _ Hrcp).
    cbn [flat_map]. rewrite reward_effects.
    rewrite (proj2 (eqb_string_false "SYSTEM" name)) by congruence.
    rewrite (proj2 (eqb_string_false miner name)) by congruence. reflexivity.
  - intros Hempty Hsys. rewrite Hlaw, unrounded_split, Hempty.
    cbn [flat_map app fold_left]. rewrite reward_effects.
    rewrite (proj2 (eqb_string_false "SYSTEM" miner)) by congruence.
    rewrite String.eqb_refl. reflexivity.
Qed.

Lemma mine_balances_witness :
  exists block : Block.t,
    mine (rt := Sample.runtime) Scenario.funded "alice"
      "2025-01-01T09:02:00Z" "2025-01-01T09:02:00Z" 100 = (Returned block, Scenario.mined)
    /\ get_balance Scenario.mined "bob" = get_balance Scenario.funded "bob".
Proof.
  destruct (mine (rt := Sample.runtime) Scenario.funded "alice"
              "2025-01-01T09:02:00Z" "2025-01-01T09:02:00Z" 100)
    as [[block|e|] self'] eqn:Hmine.
  - assert (Hself : self' = Scenario.mined).
    { unfold Scenario.mined. rewrite Hmine. reflexivity. }
    subst self'. exists block. split; [reflexivity|].
    apply (proj1 (proj2 (mine_balances _ _ _ _ _ _ _ Hmine)));
      [discriminate | discriminate |].
    apply (Forall_forall (fun tx => Transaction.recipient tx <> "bob")).
    intros tx Htx. vm_compute in Htx.
    apply list_elem_of_In in Htx. destruct Htx as [<- | []]. discriminate.
  - exfalso. vm_compute in Hmine. discriminate Hmine.
  - exfalso. vm_compute in Hmine. discriminate Hmine.
Defined.

(** ** The nonce a mined block carries *)



(** ** Import takes the snapshot at its word *)

(** [from_dict] checks nothing of what it reads: whatever the blocks
    (their hashes, indexes and links), the pending transactions and the
    names of a snapshot, the ledger it returns holds exactly them -- the
    names as a set, a missing or negative difficulty read as 2 or 0, a
    missing reward as 10.0. *)
Theorem from_dict_trusts_snapshot {rt : Runtime} (blocks : list Block.t)
    (txs : list Transaction.t) (names : list string) (d : option Z) (r : option float)
    (now_tx now_block : string) :
  from_dict
    {| d_difficulty := d; d_reward := r; d_users := Some names;
       d_pending := Some (map Transaction.to_dict txs);
       d_chain := Some (map Block.to_dict blocks) |} now_tx now_block
  = inr {| chain := blocks; pending := txs; users := list_to_set names;
           difficulty := Z.to_nat (get d 2); reward := get r 10%float |}.
Proof.
  unfold from_dict. cbn [d_pending d_chain d_users d_difficulty d_reward get].
  rewrite (comprehension_map _ _ (fun tx => tx)) by exact transaction_roundtrip.
  rewrite (comprehension_map _ _ (fun b => b)) by exact block_roundtrip.
  rewrite !map_id. reflexivity.
Qed.

Example import_of_forged_chain :
  let forged :=
    Block.mk 7 "never" [Transaction.mk "SYSTEM" "mallory" 1000000%float "" ""]
      "no such block" (-1) "not a digest" in
  exists loaded : Blockchain.t,
    from_dict (rt := Sample.runtime)
      {| d_difficulty := Some 4; d_reward := None; d_users := Some ["mallory"];
         d_pending := Some []; d_chain := Some [Block.to_dict forged] |}
      "2025-01-01T10:00:00Z" "2025-01-01T10:00:00Z" = inr loaded
    /\ chain loaded = [forged]
    /\ get_balance loaded "mallory" = 1000000%float.
Proof.
  cbn zeta. eexists. split; [reflexivity|].
  split; [reflexivity | vm_compute; reflexivity].
Qed.

(** ** Decoding, then encoding *)

Lemma transaction_decoded (d : Transaction.dict) (tx : Transaction.t) :
  Transaction.from_dict d = inr tx ->
  Transaction.to_dict tx
  = {| Transaction.d_sender := Transaction.d_sender d;
       Transaction.d_recipient := Transaction.d_recipient d;
       Transaction.d_amount := Transaction.d_amount d;
       Transaction.d_note := Some (get (Transaction.d_note d) "");
       Transaction.d_timestamp := Some (get (Transaction.d_timestamp d) "");
       Transaction.d_other := [] |}.
Proof.
  destruct d as [[s|] [r|] [a|] n ts [|k ks]]; cbn; try discriminate.
  intros [= <-]. reflexivity.
Qed.

Lemma transaction_decoded_complete (d : Transaction.dict) (tx : Transaction.t) :
  Transaction.from_dict d = inr tx -> transaction_record_complete d ->
  Transaction.to_dict tx = d.
Proof.
  intros Hd (Hother & [n Hn] & [ts Hts]). rewrite (transaction_decoded d tx Hd).
  destruct d as [s r a n' ts' o]. cbn in *. subst. reflexivity.
Qed.

(** A transaction record that decodes is written back as it was read,
    up to the defaults: it is re-encoded with a missing [note] or
    [timestamp] as the empty string, hence unchanged when it had both;
    and a list of transaction records with all five keys that decodes
    (the comprehension of [from_dict]) is re-encoded, record by record,
    as the list it was. *)
Theorem decoded_transactions_encode_back :
  (forall (d : Transaction.dict) (tx : Transaction.t),
     Transaction.from_dict d = inr tx ->
     Transaction.to_dict tx
     = {| Transaction.d_sender := Transaction.d_sender d;
          Transaction.d_recipient := Transaction.d_recipient d;
          Transaction.d_amount := Transaction.d_amount d;
          Transaction.d_note := Some (get (Transaction.d_note d) "");
          Transaction.d_timestamp := Some (get (Transaction.d_timestamp d) "");
          Transaction.d_other := [] |})
  /\ (forall (d : Transaction.dict) (tx : Transaction.t),
        Transaction.from_dict d = inr tx ->
        transaction_record_complete d ->
        Transaction.to_dict tx = d)
  /\ (forall (ds : list Transaction.dict) (txs : list Transaction.t),
        comprehension Transaction.from_dict ds = inr txs ->
        Forall transaction_record_complete ds ->
        map Transaction.to_dict txs = ds).
Proof.
  split; [exact transaction_decoded|].
  split; [exact transaction_decoded_complete|].
  intros ds. induction ds as [|d ds IH]; intros txs; cbn.
  - intros [= <-] _. reflexivity.
  - destruct (Transaction.from_dict d) as [e|tx] eqn:Hd; [discriminate|].
    destruct (comprehension Transaction.from_dict ds) as [e|rest]; [discriminate|].
    intros [= <-] Hall. apply Forall_cons in Hall as [Hc Hrest]. cbn.
    rewrite (transaction_decoded_complete d tx Hd Hc), (IH rest eq_refl Hrest).
    reflexivity.
Qed.

Lemma decoded_transactions_encode_back_witness :
  let d :=
    {| Transaction.d_sender := Some "alice"; Transaction.d_recipient := Some "bob";
       Transaction.d_amount := Some 5%float; Transaction.d_note := None;
       Transaction.d_timestamp := Some "2025-01-01T09:03:00Z";
       Transaction.d_other := [] |} in
  exists tx : Transaction.t,
    Transaction.from_dict d = inr tx
    /\ Transaction.d_note (Transaction.to_dict tx) = Some "".
Proof.
  cbn zeta.
  exists (Transaction.mk "alice" "bob" 5%float "" "2025-01-01T09:03:00Z").
  split; [reflexivity|].
  rewrite (proj1 decoded_transactions_encode_back
             {| Transaction.d_sender := Some "alice";
                Transaction.d_recipient := Some "bob";
                Transaction.d_amount := Some 5%float; Transaction.d_note := None;
                Transaction.d_timestamp := Some "2025-01-01T09:03:00Z";
                Transaction.d_other := [] |}
             (Transaction.mk "alice" "bob" 5%float "" "2025-01-01T09:03:00Z") eq_refl).
  reflexivity.
Defined.

(** ** The exported list of users *)

Lemma Sorted_weaken {A : Type} (R R' : A -> A -> Prop) (l : list A) :
  (forall a b, R a b -> R' a b) -> Sorted R l -> Sorted R' l.
Proof.
  intros Himp. induction 1 as [|a l _ IH Hhd]; constructor; [exact IH|].
  destruct Hhd; constructor. auto.
Qed.

(** The [users] list of an exported snapshot is in the code-point order
    of [str], names no user twice, and holds exactly the registered names
    -- whatever the order in which they were registered. *)
Theorem to_dict_users_sorted (self : Blockchain.t) :
  exists names : list string,
    d_users (to_dict self) = Some names
    /\ Sorted (fun a b : string => String.leb a b = true) names
    /\ NoDup names
    /\ forall name : string, name ∈ names <-> name ∈ users self.
Proof.
  exists (sorted (elements (users self))). split; [reflexivity|]. unfold sorted.
  assert (Htotal : Total (fun a b : string => Is_true (String.leb a b))).
  { intros a b. destruct (String.leb_total a b) as [H | H]; rewrite H; cbn; auto. }
  split; [|split].
  - eapply Sorted_weaken; [|apply (Sorted_merge_sort _)].
    intros a b Hab. apply Is_true_true. exact Hab.
  - rewrite merge_sort_Permutation. apply NoDup_elements.
  - intros name. rewrite merge_sort_Permutation. apply elem_of_elements.
Qed.

(** ** What waits in the queue *)

(** In every ledger reached from a fresh one, each pending transaction
    passed the checks of admission and still would: [amount <= 0] is false
    of its amount, its sender is SYSTEM or a user, and its recipient is
    GENESIS or a user. *)
Theorem reachable_pending_admitted {rt : Runtime} (self : Blockchain.t) :
  reachable self ->
  Forall (fun tx =>
            (Transaction.amount tx <=? 0)%float = false
            /\ known_parties (users self) tx)
    (pending self).
Proof.
  intros Hreach. apply Forall_and. split; [|apply (reachable_parties self Hreach)].
  induction Hreach as [d r now_tx now_block | self name _ IH
                      | self sender recipient amount note now _ IH
                      | self miner now_tx now_block fuel _ IH].
  - apply Forall_nil_2.
  - destruct (add_user_chain self name) as [_ ->]. exact IH.
  - destruct (add_transaction self sender recipient amount note now)
      as [[msg|] self'] eqn:Hadd; cbn.
    + apply add_transaction_rejected in Hadd as ->. exact IH.
    + apply add_transaction_accepted in Hadd as (x & _ & Hpos & _ & _ & _ & ->).
      cbn. apply Forall_app. split; [exact IH|].
      apply Forall_cons_2; [exact Hpos | apply Forall_nil_2].
  - destruct (mine_chain self miner now_tx now_block fuel)
      as [-> | (last_block & block & _ & _ & -> & _)]; [exact IH|].
    apply Forall_nil_2.
Qed.

Lemma reachable_pending_admitted_witness :
  reachable (rt := Sample.runtime) Scenario.paying
  /\ Forall (fun tx => (Transaction.amount tx <=? 0)%float = false)
       (pending Scenario.paying).
Proof.
  split; [exact scenario_reachable|].
  eapply Forall_impl;
    [exact (reachable_pending_admitted Scenario.paying scenario_reachable)|].
  intros tx [Hpos _]. exact Hpos.
Defined.

(** ** The message of a refused transaction *)

(** [add_transaction] makes its checks in the order number, sign,
    sender, recipient, funds, and answers with the message of the first
    one that fails: an amount that is no number is reported whatever the
    parties; an amount with [amount <= 0] whatever the parties; an unknown
    sender even when the recipient is unknown too; and the funds are
    looked at only when both parties are known. *)
Theorem add_transaction_first_failure {rt : Runtime} (self : Blockchain.t)
    (sender recipient : string) (amount : number_arg) (note now : string) :
  (to_float amount = None ->
   add_transaction self sender recipient amount note now
   = (Some "Amount must be a number.", self))
  /\ (forall x : float,
        to_float amount = Some x ->
        ((x <=? 0)%float = true ->
         add_transaction self sender recipient amount note now
         = (Some "Amount must be positive.", self))
        /\ ((x <=? 0)%float = false ->
            sender <> "SYSTEM" -> sender ∉ users self ->
            add_transaction self sender recipient amount note now
            = (Some ("Unknown sender '" +:+ sender +:+ "'."), self))
        /\ ((x <=? 0)%float = false ->
            sender = "SYSTEM" \/ sender ∈ users self ->
            recipient ∉ users self -> recipient <> "GENESIS" ->
            add_transaction self sender recipient amount note now
            = (Some ("Unknown recipient '" +:+ recipient +:+ "'."), self))
        /\ ((x <=? 0)%float = false ->
            sender <> "SYSTEM" -> sender ∈ users self ->
            recipient ∈ users self \/ recipient = "GENESIS" ->
            (get_balance self sender <? x)%float = true ->
            add_transaction self sender recipient amount note now
            = (Some ("Insufficient funds: " +:+ sender +:+ " has " +:+
                     float_repr (get_balance self sender) +:+ "."), self))).
Proof.
  unfold add_transaction. split; [intros ->; reflexivity|].
  intros x ->. split; [intros ->; reflexivity|].
  assert (Hsender_ok : sender = "SYSTEM" \/ sender ∈ users self ->
            negb (sender =? "SYSTEM")%string
            && negb (bool_decide (sender ∈ users self)) = false).
  { intros [-> | Hs]; [reflexivity|].
    rewrite (bool_decide_eq_true_2 _ Hs). apply andb_false_r. }
  split; [|split].
  - intros -> Hs Hu.
    rewrite (proj2 (eqb_string_false sender "SYSTEM") Hs).
    rewrite (bool_decide_eq_false_2 _ Hu). reflexivity.
  - intros -> Hs Hr Hg. rewrite (Hsender_ok Hs).
    rewrite (bool_decide_eq_false_2 _ Hr).
    rewrite (proj2 (eqb_string_false recipient "GENESIS") Hg). reflexivity.
  - intros -> Hs Hu Hr Hbal. rewrite (Hsender_ok (or_intror Hu)).
    assert (Hrecipient : negb (bool_decide (recipient ∈ users self))
                         && negb (recipient =? "GENESIS")%string = false).
    { destruct Hr as [Hr | ->]; [|apply andb_false_r].
      rewrite (bool_decide_eq_true_2 _ Hr). reflexivity. }
    rewrite Hrecipient, (proj2 (eqb_string_false sender "SYSTEM") Hs), Hbal.
    reflexivity.
Qed.

Lemma add_transaction_first_failure_witness :
  ("zoe" ∉ users Scenario.registered)
  /\ ("yan" ∉ users Scenario.registered)
  /\ add_transaction (rt := Sample.runtime) Scenario.registered "zoe" "yan"
       (OfStr "5") "" "2025-01-01T09:03:00Z"
     = (Some "Unknown sender 'zoe'.", Scenario.registered).
Proof.
  assert (Hzoe : "zoe" ∉ users Scenario.registered) by by_evaluation.
  assert (Hyan : "yan" ∉ users Scenario.registered) by by_evaluation.
  split; [exact Hzoe|]. split; [exact Hyan|].
  apply (proj1 (proj2 (proj2 (add_transaction_first_failure (rt := Sample.runtime)
                  Scenario.registered "zoe" "yan" (OfStr "5") ""
                  "2025-01-01T09:03:00Z")
                 5%float eq_refl)));
    [reflexivity | discriminate | exact Hzoe].
Defined.

(** * Properties of the shell *)

Section ShellSessions.

Context {rt : Runtime} {srt : ShellRuntime}.

Lemma truthy_Some (arg : option string) (s : string) :
  Shell.truthy arg = Some s -> arg = Some s /\ s <> "".
Proof.
  destruct arg as [a|]; cbn; [|discriminate].
  case_str a ""; [discriminate|]. intros [= <-]. auto.
Qed.

(** What one call on the ledger keeps. *)
Lemma ledger_step_frame (self self' : Blockchain.t) :
  ledger_step self self' ->
  users self ⊆ users self'
  /\ (chain self <> [] -> chain self' <> [])
  /\ difficulty self' = difficulty self
  /\ reward self' = reward self
  /\ ("SYSTEM" ∉ users self -> "SYSTEM" ∉ users self').
Proof.
  destruct 1 as [name | sender recipient amount note now | miner now_tx now_block fuel].
  - destruct (add_user_chain self name) as [-> _].
    assert (Hpolicy : difficulty (snd (add_user self name)) = difficulty self
                      /\ reward (snd (add_user self name)) = reward self).
    { rewrite add_user_ledger. destruct (fst (add_user self name)); auto. }
    destruct Hpolicy as [-> ->].
    destruct (add_user_users self name) as [-> | (_ & Hadm & _ & ->)].
    + repeat split; auto.
    + split; [apply union_subseteq_r|]. repeat split; auto.
      intros Hsys Hin. apply elem_of_union in Hin as [Hin | Hin]; [|auto].
      apply elem_of_singleton in Hin. destruct Hadm as (_ & _ & Hup).
      apply Hup. rewrite <- Hin. reflexivity.
  - destruct (add_transaction_chain self sender recipient amount note now) as [-> ->].
    destruct (add_transaction_policy self sender recipient amount note now) as [-> ->].
    auto.
  - destruct (mine_chain self miner now_tx now_block fuel)
      as [-> | (last_block & block & _ & _ & -> & _)]; [auto|].
    cbn. repeat split; auto. intros _ Hnil. apply app_eq_nil in Hnil as [_ Hnil].
    discriminate Hnil.
Qed.

Lemma do_create_user_step (self : BlockchainShell.t) (name : option string) :
  BlockchainShell.current_user (snd (Shell.do_create_user self name))
  = BlockchainShell.current_user self
  /\ (BlockchainShell.bc (snd (Shell.do_create_user self name)) = BlockchainShell.bc self
      \/ ledger_step (BlockchainShell.bc self)
           (BlockchainShell.bc (snd (Shell.do_create_user self name)))).
Proof.
  unfold Shell.do_create_user. destruct (Shell.truthy name) as [n|]; [|auto].
  pose proof (step_add_user (BlockchainShell.bc self) n) as Hstep.
  destruct (add_user (BlockchainShell.bc self) n) as [[|] ledger]; cbn in *; auto.
Qed.

Lemma do_login_step (self : BlockchainShell.t) (name : option string) :
  BlockchainShell.bc (snd (Shell.do_login self name)) = BlockchainShell.bc self
  /\ (BlockchainShell.current_user (snd (Shell.do_login self name))
      = BlockchainShell.current_user self
      \/ exists user : string,
           user <> "" /\ user ∈ users (BlockchainShell.bc self)
           /\ BlockchainShell.current_user (snd (Shell.do_login self name)) = Some user).
Proof.
  unfold Shell.do_login. destruct (Shell.truthy name) as [n|] eqn:Hn; [|auto].
  apply truthy_Some in Hn as [_ Hne].
  case_bool_decide as Hin; cbn; [|auto]. split; [reflexivity|]. right. eauto.
Qed.

Lemma do_faucet_step (self : BlockchainShell.t) (amount : option string) (now : string) :
  BlockchainShell.current_user (snd (Shell.do_faucet self amount now))
  = BlockchainShell.current_user self
  /\ (BlockchainShell.bc (snd (Shell.do_faucet self amount now)) = BlockchainShell.bc self
      \/ ledger_step (BlockchainShell.bc self)
           (BlockchainShell.bc (snd (Shell.do_faucet self amount now)))).
Proof.
  unfold Shell.do_faucet.
  destruct (Shell.truthy (BlockchainShell.current_user self)) as [user|]; [|auto].
  destruct (Shell.truthy amount) as [a|]; [|auto].
  pose proof (step_add_transaction (BlockchainShell.bc self) "SYSTEM" user (OfStr a)
                "Faucet" now) as Hstep.
  destruct (add_transaction (BlockchainShell.bc self) "SYSTEM" user (OfStr a) "Faucet" now)
    as [err ledger].
  destruct (Shell.truthy err); cbn in *; auto.
Qed.

Lemma do_send_step (self : BlockchainShell.t) (to amount : option string)
    (note : list string) (now : string) :
  BlockchainShell.current_user (snd (Shell.do_send self to amount note now))
  = BlockchainShell.current_user self
  /\ (BlockchainShell.bc (snd (Shell.do_send self to amount note now))
      = BlockchainShell.bc self
      \/ ledger_step (BlockchainShell.bc self)
           (BlockchainShell.bc (snd (Shell.do_send self to amount note now)))).
Proof.
  unfold Shell.do_send.
  destruct (Shell.truthy (BlockchainShell.current_user self)) as [user|]; [|auto].
  destruct (Shell.truthy to) as [t|]; [|auto]. destruct amount as [a|]; [|auto].
  pose proof (step_add_transaction (BlockchainShell.bc self) user t (OfStr a)
                (String.concat " " note) now) as Hstep.
  destruct (add_transaction (BlockchainShell.bc self) user t (OfStr a)
              (String.concat " " note) now) as [err ledger].
  destruct (Shell.truthy err); cbn in *; auto.
Qed.

(** [do_mine] passes on what [mine] answers for the logged-in user. *)
Lemma do_mine_step (self : BlockchainShell.t) (now_tx now_block : string) (fuel : nat) :
  BlockchainShell.current_user (snd (Shell.do_mine self now_tx now_block fuel))
  = BlockchainShell.current_user self
  /\ ((snd (Shell.do_mine self now_tx now_block fuel) = self
       /\ fst (Shell.do_mine self now_tx now_block fuel) = Returned ["Login first."])
      \/ exists user : string,
           BlockchainShell.current_user self = Some user
           /\ BlockchainShell.bc (snd (Shell.do_mine self now_tx now_block fuel))
              = snd (mine (BlockchainShell.bc self) user now_tx now_block fuel)
           /\ forall e : exn,
                fst (Shell.do_mine self now_tx now_block fuel) = Raised e ->
                fst (mine (BlockchainShell.bc self) user now_tx now_block fuel)
                = Raised e).
Proof.
  unfold Shell.do_mine.
  destruct (Shell.truthy (BlockchainShell.current_user self)) as [user|] eqn:Hu;
    [|auto].
  apply truthy_Some in Hu as [Hu _].
  destruct (mine (BlockchainShell.bc self) user now_tx now_block fuel)
    as [[block|e|] ledger] eqn:Hmine; cbn.
  - split; [reflexivity|]. right. exists user. rewrite Hmine.
    split; [exact Hu|]. split; [reflexivity|]. intros e' He'. discriminate He'.
  - split; [reflexivity|]. right. exists user. rewrite Hmine.
    split; [exact Hu|]. split; [reflexivity|]. intros e' [= <-]. reflexivity.
  - split; [reflexivity|]. right. exists user. rewrite Hmine.
    split; [exact Hu|]. split; [reflexivity|]. intros e' He'. discriminate He'.
Qed.

Lemma do_difficulty_step (self : BlockchainShell.t) (new_value : option string) :
  let self' := snd (Shell.do_difficulty self new_value) in
  BlockchainShell.current_user self' = BlockchainShell.current_user self
  /\ chain (BlockchainShell.bc self') = chain (BlockchainShell.bc self)
  /\ users (BlockchainShell.bc self') = users (BlockchainShell.bc self)
  /\ reward (BlockchainShell.bc self') = reward (BlockchainShell.bc self)
  /\ (difficulty (BlockchainShell.bc self') = difficulty (BlockchainShell.bc self)
      \/ (difficulty (BlockchainShell.bc self') <= 6)%nat).
Proof.
  unfold Shell.do_difficulty. destruct new_value as [v|]; cbn; [|auto 6].
  destruct (int_of_str v) as [n|]; cbn; [|auto 6].
  destruct (n <? 0) eqn:Hlo; cbn; [auto 6|].
  destruct (n >? 6) eqn:Hhi; cbn; [auto 6|].
  repeat split. right. apply Z.ltb_ge in Hlo. rewrite Z.gtb_ltb in Hhi.
  apply Z.ltb_ge in Hhi. lia.
Qed.

Lemma do_reward_step (self : BlockchainShell.t) (amount : option string) :
  let self' := snd (Shell.do_reward self amount) in
  BlockchainShell.current_user self' = BlockchainShell.current_user self
  /\ chain (BlockchainShell.bc self') = chain (BlockchainShell.bc self)
  /\ users (BlockchainShell.bc self') = users (BlockchainShell.bc self)
  /\ difficulty (BlockchainShell.bc self') = difficulty (BlockchainShell.bc self)
  /\ (reward (BlockchainShell.bc self') = reward (BlockchainShell.bc self)
      \/ (reward (BlockchainShell.bc self') <=? 0)%float = false).
Proof.
  unfold Shell.do_reward. destruct amount as [a|]; cbn; [|auto 6].
  destruct (float_of_str a) as [r|]; cbn; [|auto 6].
  destruct (r <=? 0)%float eqn:Hr; cbn; auto 6.
Qed.

Lemma do_balance_step (self : BlockchainShell.t) (name : option string) :
  snd (Shell.do_balance self name) = self.
Proof.
  unfold Shell.do_balance.
  destruct (Shell.truthy _) as [target|]; [|reflexivity].
  destruct (_ && _); reflexivity.
Qed.

Lemma do_load_step (self : BlockchainShell.t) (data : Blockchain.dict)
    (now_tx now_block : string) :
  snd (BlockchainShell.do_load self data now_tx now_block) = self
  \/ BlockchainShell.current_user (snd (BlockchainShell.do_load self data now_tx now_block))
     = None.
Proof.
  unfold BlockchainShell.do_load. destruct (from_dict data now_tx now_block); cbn; auto.
Qed.

(** The logged-in user of a session is a registered, non-empty name. *)
Lemma reachable_logged_in (with_load : bool) (self : BlockchainShell.t) :
  Shell.reachable with_load self ->
  forall user : string,
    BlockchainShell.current_user self = Some user ->
    user <> "" /\ user ∈ users (BlockchainShell.bc self).
Proof.
  induction 1 as [now_tx now_block | self name _ IH | self name _ IH | self _ IH
                 | self amount now _ IH | self to amount note now _ IH
                 | self now_tx now_block fuel _ IH | self new_value _ IH
                 | self amount _ IH | self name _ IH
                 | self data now_tx now_block _ _ IH]; intros user.
  - discriminate.
  - destruct (do_create_user_step self name) as [-> [-> | Hstep]]; [exact (IH user)|].
    intros Hu. destruct (IH user Hu) as [Hne Hin]. split; [exact Hne|].
    apply (proj1 (ledger_step_frame _ _ Hstep)), Hin.
  - destruct (do_login_step self name) as [-> [-> | (u & Hne & Hin & ->)]];
      [exact (IH user)|]. intros [= <-]. auto.
  - discriminate.
  - destruct (do_faucet_step self amount now) as [-> [-> | Hstep]]; [exact (IH user)|].
    intros Hu. destruct (IH user Hu) as [Hne Hin]. split; [exact Hne|].
    apply (proj1 (ledger_step_frame _ _ Hstep)), Hin.
  - destruct (do_send_step self to amount note now) as [-> [-> | Hstep]];
      [exact (IH user)|].
    intros Hu. destruct (IH user Hu) as [Hne Hin]. split; [exact Hne|].
    apply (proj1 (ledger_step_frame _ _ Hstep)), Hin.
  - destruct (do_mine_step self now_tx now_block fuel)
      as [-> [[-> _] | (u & _ & -> & _)]]; [exact (IH user)|].
    intros Hu. destruct (IH user Hu) as [Hne Hin]. split; [exact Hne|].
    apply (proj1 (ledger_step_frame _ _
                    (step_mine (BlockchainShell.bc self) u now_tx now_block fuel))), Hin.
  - destruct (do_difficulty_step self new_value) as (-> & _ & -> & _). exact (IH user).
  - destruct (do_reward_step self amount) as (-> & _ & -> & _). exact (IH user).
  - rewrite do_balance_step. exact (IH user).
  - destruct (do_load_step self data now_tx now_block) as [-> | ->];
      [exact (IH user) | discriminate].
Qed.

(** In every session of the shell, [load] included, whoever is logged
    in is a registered user with a non-empty name -- users are never
    removed, and a successful [load] logs out -- so the [mine] command
    never meets the [ValueError] of an unknown miner. *)
Theorem shell_miner_is_registered (with_load : bool) (self : BlockchainShell.t) :
  Shell.reachable with_load self ->
  (forall user : string,
     BlockchainShell.current_user self = Some user ->
     user <> "" /\ user ∈ users (BlockchainShell.bc self))
  /\ (forall (now_tx now_block : string) (fuel : nat),
        fst (Shell.do_mine self now_tx now_block fuel) <> Raised ValueError).
Proof.
  intros Hreach. split; [exact (reachable_logged_in with_load self Hreach)|].
  intros now_tx now_block fuel Hraised.
  destruct (do_mine_step self now_tx now_block fuel)
    as [_ [[_ Hfirst] | (user & Huser & _ & Hpass)]].
  - rewrite Hfirst in Hraised. discriminate Hraised.
  - specialize (Hpass _ Hraised).
    destruct (reachable_logged_in with_load self Hreach user Huser) as [_ Hin].
    destruct (mine_cases (BlockchainShell.bc self) user now_tx now_block fuel)
      as [[Hno _] | [(_ & _ & Hm) | (last_block & _ & _ & Hm)]].
    + contradiction.
    + rewrite Hm in Hpass. discriminate Hpass.
    + cbn zeta in Hm. destruct (proof_of_work fuel _ _);
        rewrite Hm in Hpass; discriminate Hpass.
Qed.

(** What a session without [load] keeps of its ledger. *)
Lemma reachable_without_load (self : BlockchainShell.t) :
  Shell.reachable false self ->
  (difficulty (BlockchainShell.bc self) <= 6)%nat
  /\ (reward (BlockchainShell.bc self) <=? 0)%float = false
  /\ chain (BlockchainShell.bc self) <> []
  /\ "SYSTEM" ∉ users (BlockchainShell.bc self).
Proof.
  assert (Hkeep : forall a b : Blockchain.t,
            b = a \/ ledger_step a b ->
            (difficulty a <= 6)%nat /\ (reward a <=? 0)%float = false
            /\ chain a <> [] /\ "SYSTEM" ∉ users a ->
            (difficulty b <= 6)%nat /\ (reward b <=? 0)%float = false
            /\ chain b <> [] /\ "SYSTEM" ∉ users b).
  { intros a b [-> | Hstep] (Hd & Hr & Hc & Hs); [auto|].
    destruct (ledger_step_frame a b Hstep) as (_ & Hc' & -> & -> & Hs'). auto. }
  induction 1 as [now_tx now_block | self name _ IH | self name _ IH | self _ IH
                 | self amount now _ IH | self to amount note now _ IH
                 | self now_tx now_block fuel _ IH | self new_value _ IH
                 | self amount _ IH | self name _ IH
                 | self data now_tx now_block Hload _ IH].
  - cbn. repeat split; [lia | discriminate | set_solver].
  - destruct (do_create_user_step self name) as [_ Hstep]. exact (Hkeep _ _ Hstep IH).
  - destruct (do_login_step self name) as [-> _]. exact IH.
  - exact IH.
  - destruct (do_faucet_step self amount now) as [_ Hstep]. exact (Hkeep _ _ Hstep IH).
  - destruct (do_send_step self to amount note now) as [_ Hstep].
    exact (Hkeep _ _ Hstep IH).
  - destruct (do_mine_step self now_tx now_block fuel)
      as [_ [[-> _] | (u & _ & -> & _)]]; [exact IH|].
    exact (Hkeep _ _ (or_intror (step_mine _ u now_tx now_block fuel)) IH).
  - destruct IH as (Hd & Hr & Hc & Hs).
    destruct (do_difficulty_step self new_value) as (_ & -> & -> & -> & [-> | Hle]);
      auto.
  - destruct IH as (Hd & Hr & Hc & Hs).
    destruct (do_reward_step self amount) as (_ & -> & -> & -> & [-> | Hpos]); auto.
  - rewrite do_balance_step. exact IH.
  - discriminate Hload.
Qed.

(** In a session that never loads a file, the difficulty stays within
    0..6, [reward <= 0] stays false of the reward, the chain keeps its
    blocks and SYSTEM is no user; so the [mine] command raises nothing --
    it answers or its search goes on -- and the [balance] command does not
    show the balance of SYSTEM. *)
Theorem shell_session_without_load (self : BlockchainShell.t) :
  Shell.reachable false self ->
  (difficulty (BlockchainShell.bc self) <= 6)%nat
  /\ (reward (BlockchainShell.bc self) <=? 0)%float = false
  /\ (forall (now_tx now_block : string) (fuel : nat) (e : exn),
        fst (Shell.do_mine self now_tx now_block fuel) <> Raised e)
  /\ Shell.do_balance self (Some "SYSTEM") = (["Unknown user 'SYSTEM'."], self).
Proof.
  intros Hreach. destruct (reachable_without_load self Hreach) as (Hd & Hr & Hc & Hs).
  split; [exact Hd|]. split; [exact Hr|]. split.
  - intros now_tx now_block fuel e Hraised.
    destruct (do_mine_step self now_tx now_block fuel)
      as [_ [[_ Hfirst] | (user & Huser & _ & Hpass)]].
    + rewrite Hfirst in Hraised. discriminate Hraised.
    + specialize (Hpass _ Hraised).
      destruct (reachable_logged_in false self Hreach user Huser) as [_ Hin].
      destruct (mine_cases (BlockchainShell.bc self) user now_tx now_block fuel)
        as [[Hno _] | [(_ & Hnone & _) | (last_block & _ & _ & Hm)]].
      * contradiction.
      * apply last_None in Hnone. contradiction.
      * cbn zeta in Hm. destruct (proof_of_work fuel _ _);
          rewrite Hm in Hpass; discriminate Hpass.
  - unfold Shell.do_balance. cbn.
    rewrite (bool_decide_eq_false_2 _ Hs). reflexivity.
Qed.

End ShellSessions.

Lemma shell_scenario_reachable (with_load : bool) :
  Shell.reachable (rt := Sample.runtime) (srt := SampleShell.runtime) with_load
    ShellScenario.mined.
Proof.
  unfold ShellScenario.mined, ShellScenario.harder, ShellScenario.logged_in,
    ShellScenario.started.
  repeat first [ apply Shell.reach_mine | apply Shell.reach_difficulty
               | apply Shell.reach_faucet | apply Shell.reach_login
               | apply Shell.reach_create_user | apply Shell.reach_new ].
Qed.

Lemma shell_miner_is_registered_witness :
  Shell.reachable (rt := Sample.runtime) (srt := SampleShell.runtime) true
    ShellScenario.mined
  /\ BlockchainShell.current_user ShellScenario.mined = Some "alice"
  /\ "alice" ∈ users (BlockchainShell.bc ShellScenario.mined).
Proof.
  assert (Huser : BlockchainShell.current_user ShellScenario.mined = Some "alice")
    by (vm_compute; reflexivity).
  split; [exact (shell_scenario_reachable true)|]. split; [exact Huser|].
  exact (proj2 (proj1 (shell_miner_is_registered true ShellScenario.mined
                         (shell_scenario_reachable true)) "alice" Huser)).
Defined.

Lemma shell_session_without_load_witness :
  Shell.reachable (rt := Sample.runtime) (srt := SampleShell.runtime) false
    ShellScenario.mined
  /\ (difficulty (BlockchainShell.bc ShellScenario.mined) <= 6)%nat
  /\ forall (now_tx now_block : string) (fuel : nat) (e : exn),
       fst (Shell.do_mine (rt := Sample.runtime) ShellScenario.mined
              now_tx now_block fuel) <> Raised e.
Proof.
  destruct (shell_session_without_load ShellScenario.mined
              (shell_scenario_reachable false)) as (Hd & _ & Hmine & _).
  split; [exact (shell_scenario_reachable false)|]. split; [exact Hd | exact Hmine].
Defined.
